(** * createcomponent.py: a shallow embedding and its specification

    The script asks for a base folder and an element name on the terminal,
    shows the three files it is about to produce, and after confirmation
    creates them through [pathlib].  The development follows the layout of
    the script:

    - [Str], [PyList]: the fragment of Python's [str] and [list] in use;
    - [PurePath]: lexical paths, as [pathlib.PurePosixPath] builds them;
    - [Os]: a file store with the four [Path] methods the script calls;
    - section [Script]: the classes of the script, over the location of
      the script file and over [Path.resolve];
    - the statements proved of all this.

    A [str] is kept as the bytes of its UTF-8 encoding, which is also the
    encoding of the terminal and of the files.  [str.strip]
    removes the white space of Unicode, read off those bytes; the length
    and the slices of [get_relative_filename] count code points.
    [str.lower] is modelled on the ASCII range: the script compares the
    lowered answer with [c], [p], [y], [n] and the empty string only, and
    Unicode lowers no other character to one of these letters nor any
    character to nothing.

    The file store is keyed by the lexical path; a regular file holds
    text or bytes that do not decode; reading translates the line ends,
    as the text mode of [open] does.  Symbolic links, permissions, the
    limits on the length of names and the resolution of [..] by the
    file system are outside the model.  An interrupt is delivered while
    the script waits for a line; a signal that arrives at another moment
    is outside the model as well. *)

From Stdlib Require Import ZArith Ascii String List Lia.
From stdpp Require Import base decidable option list strings countable gmap.

Local Open Scope Z_scope.

(** ** Exceptions and results *)

(** The argument of [SystemExit] as the script uses it: nothing, or a
    message. *)
Inductive exit_arg : Type :=
  | ExitNone
  | ExitStr (msg : string).

Inductive exn : Type :=
  | IndexError
  | EOFError
  | KeyboardInterrupt
  | SystemExit (code : exit_arg)
  | FileNotFoundError
  | FileExistsError
  | NotADirectoryError
  | IsADirectoryError
  | UnicodeDecodeError.

#[global] Instance exit_arg_eq_dec : EqDecision exit_arg.
Proof. solve_decision. Defined.

#[global] Instance exn_eq_dec : EqDecision exn.
Proof. solve_decision. Defined.

Inductive result (A : Type) : Type :=
  | Return (a : A)
  | Raise (e : exn).

Arguments Return {A} a.
Arguments Raise {A} e.

(** Computations over a state [S] that may raise; the state reached when
    the exception is raised is kept, as Python keeps it. *)
Definition M (S A : Type) : Type := S -> S * result A.

Definition ret {S A} (a : A) : M S A := fun s => (s, Return a).

Definition raise {S A} (e : exn) : M S A := fun s => (s, Raise e).

Definition bind {S A B} (m : M S A) (k : A -> M S B) : M S B :=
  fun s =>
    match m s with
    | (s', Return a) => k a s'
    | (s', Raise e) => (s', Raise e)
    end.

Definition seq {S A B} (m : M S A) (k : M S B) : M S B :=
  bind m (fun _ => k).

Infix ">>=" := bind (at level 50, left associativity).
Infix ">>" := seq (at level 50, left associativity).

(** ** Strings *)

Module Str.

Definition dquote : string := String "034"%char EmptyString.
Definition nl : string := String "010"%char EmptyString.
Definition tab : string := String "009"%char EmptyString.
Definition esc : string := String "027"%char EmptyString.

(** [str.isspace] on a character of one byte: TAB, LF, VT, FF, CR, the
    four separators FS, GS, RS, US, and the space. *)
Definition isspace (c : ascii) : bool :=
  let n := N_of_ascii c in
  ((9 <=? n) && (n <=? 13) || (28 <=? n) && (n <=? 32))%N.

(** [str.isspace] on a character of two bytes: U+0085 and U+00A0. *)
Definition isspace2 (c d : ascii) : bool :=
  let n := N_of_ascii c in
  let m := N_of_ascii d in
  ((n =? 194) && ((m =? 133) || (m =? 160)))%N.

(** [str.isspace] on a character of three bytes: U+1680, U+2000 to
    U+200A, U+2028, U+2029, U+202F, U+205F and U+3000. *)
Definition isspace3 (c d e : ascii) : bool :=
  let n := N_of_ascii c in
  let m := N_of_ascii d in
  let k := N_of_ascii e in
  ((n =? 225) && (m =? 154) && (k =? 128) ||
   (n =? 226) && (m =? 128) &&
     ((128 <=? k) && (k <=? 138) || (k =? 168) || (k =? 169) || (k =? 175)) ||
   (n =? 226) && (m =? 129) && (k =? 159) ||
   (n =? 227) && (m =? 128) && (k =? 128))%N.

Definition lower_char (c : ascii) : ascii :=
  let n := N_of_ascii c in
  if ((65 <=? n) && (n <=? 90))%N then ascii_of_N (n + 32) else c.

Fixpoint lower (s : string) : string :=
  match s with
  | EmptyString => EmptyString
  | String c s' => String (lower_char c) (lower s')
  end.

(** Every character of [s] is white space. *)
Fixpoint all_space (s : string) : bool :=
  match s with
  | EmptyString => true
  | String c s1 =>
      if isspace c then all_space s1
      else match s1 with
           | EmptyString => false
           | String d s2 =>
               if isspace2 c d then all_space s2
               else match s2 with
                    | EmptyString => false
                    | String e s3 =>
                        if isspace3 c d e then all_space s3 else false
                    end
           end
  end.

Fixpoint lstrip (s : string) : string :=
  match s with
  | EmptyString => EmptyString
  | String c s1 =>
      if isspace c then lstrip s1
      else match s1 with
           | EmptyString => s
           | String d s2 =>
               if isspace2 c d then lstrip s2
               else match s2 with
                    | EmptyString => s
                    | String e s3 =>
                        if isspace3 c d e then lstrip s3 else s
                    end
           end
  end.

(** The string ends where nothing but white space follows. *)
Fixpoint rstrip (s : string) : string :=
  match s with
  | EmptyString => EmptyString
  | String c s' => if all_space s then EmptyString else String c (rstrip s')
  end.

Definition strip (s : string) : string := rstrip (lstrip s).

(** [s.split(sep)] for a separator of one character. *)
Fixpoint split (sep : ascii) (s : string) : list string :=
  match s with
  | EmptyString => [EmptyString]
  | String c s' =>
      if decide (c = sep) then EmptyString :: split sep s'
      else match split sep s' with
           | [] => [String c EmptyString]
           | x :: xs => String c x :: xs
           end
  end.

(** [sep.join(l)] *)
Fixpoint join (sep : string) (l : list string) : string :=
  match l with
  | [] => EmptyString
  | [x] => x
  | x :: xs => x +:+ sep +:+ join sep xs
  end.

(** [sep in s] for a separator of one character, negated. *)
Fixpoint no_sep (sep : ascii) (s : string) : Prop :=
  match s with
  | EmptyString => True
  | String c s' => c <> sep /\ no_sep sep s'
  end.

(** [s.startswith(c)] and [s.endswith(c)] for one character. *)
Definition startswith (c : ascii) (s : string) : bool :=
  match s with
  | String c' _ => bool_decide (c' = c)
  | EmptyString => false
  end.

Fixpoint endswith (c : ascii) (s : string) : bool :=
  match s with
  | EmptyString => false
  | String c' EmptyString => bool_decide (c' = c)
  | String _ s' => endswith c s'
  end.

(** A byte that continues a character of several bytes. *)
Definition is_continuation (c : ascii) : bool :=
  let n := N_of_ascii c in ((128 <=? n) && (n <=? 191))%N.

(** [len(s)]: the characters of [s], one for every byte that starts
    one. *)
Fixpoint len (s : string) : nat :=
  match s with
  | EmptyString => O
  | String c s' => if is_continuation c then len s' else S (len s')
  end.

(** The rest of [s] after the bytes that continue a character. *)
Fixpoint skip_continuation (s : string) : string :=
  match s with
  | EmptyString => EmptyString
  | String c s' => if is_continuation c then skip_continuation s' else s
  end.

(** [s] does not begin in the middle of a character. *)
Definition starts_char (s : string) : bool :=
  match s with
  | EmptyString => true
  | String c _ => negb (is_continuation c)
  end.

(** [s[n:]] for [0 <= n], counted in characters. *)
Fixpoint drop (n : nat) (s : string) : string :=
  match n, s with
  | O, _ => s
  | S _, EmptyString => EmptyString
  | S n', String _ s' => drop n' (skip_continuation s')
  end.

End Str.

(** ** Lists *)

Module PyList.

(** [l[i]], with negative indices counted from the end. *)
Definition getitem {A} (l : list A) (i : Z) : result A :=
  let n := Z.of_nat (length l) in
  let j := if i <? 0 then i + n else i in
  if (j <? 0) || (n <=? j) then Raise IndexError
  else match l !! Z.to_nat j with
       | Some x => Return x
       | None => Raise IndexError
       end.

(** [l[:stop]] *)
Definition slice_to {A} (l : list A) (stop : Z) : list A :=
  let n := Z.of_nat (length l) in
  let j := if stop <? 0 then Z.max 0 (stop + n) else Z.min stop n in
  take (Z.to_nat j) l.

End PyList.

(** ** Lexical paths *)

Module PurePath.
Import Str.

Definition sep : ascii := "/"%char.

(** A path as [pathlib] keeps it: the root ([/], [//] or none) and the
    components below it. *)
Record Path : Type := mk { root : string; parts : list string }.

#[global] Instance Path_eq_dec : EqDecision Path.
Proof. solve_decision. Defined.

#[global] Instance Path_countable : Countable Path :=
  inj_countable' (fun p => (root p, parts p))
                 (fun rp => mk (fst rp) (snd rp))
                 (fun p => match p with mk _ _ => eq_refl end).

Fixpoint lstrip_sep (s : string) : string :=
  match s with
  | String c s' => if decide (c = sep) then lstrip_sep s' else s
  | EmptyString => EmptyString
  end.

(** [_PosixFlavour.splitroot]: exactly two leading slashes are kept as a
    root of their own, any other number collapses to one. *)
Definition splitroot (part : string) : string * string :=
  if startswith sep part then
    let stripped_part := lstrip_sep part in
    if decide (String.length part - String.length stripped_part = 2)%nat
    then ("//", stripped_part)
    else ("/", stripped_part)
  else (EmptyString, part).

(** [_Flavour.parse_parts] on one argument: empty components and [.] are
    dropped, [..] is kept. *)
Definition parse_parts (part : string) : string * list string :=
  let (rt, rel) := splitroot part in
  (rt, filter (fun x => x <> EmptyString /\ x <> ".") (split sep rel)).

(** [Path(s)] *)
Definition of_string (s : string) : Path :=
  let (rt, ps) := parse_parts s in mk rt ps.

(** [p / key]: a rooted [key] replaces [p]. *)
Definition truediv (p : Path) (key : string) : Path :=
  let (rt, ps) := parse_parts key in
  if decide (rt = EmptyString) then mk (root p) (parts p ++ ps)
  else mk rt ps.

(** [p.parent]; the root and the empty path are their own parent. *)
Definition parent (p : Path) : Path :=
  mk (root p) (removelast (parts p)).

(** The paths [r/xn/../x1], .., [r/xn], [r] for the components
    [x1; ..; xn] listed innermost first. *)
Fixpoint chain (r : string) (rparts : list string) : list Path :=
  mk r (rev rparts) ::
  match rparts with
  | [] => []
  | _ :: rest => chain r rest
  end.

(** [p.parents] *)
Definition parents (p : Path) : list Path :=
  match rev (parts p) with
  | [] => []
  | _ :: rest => chain (root p) rest
  end.

(** [str(p)] *)
Definition str (p : Path) : string :=
  match root p, parts p with
  | EmptyString, [] => "."
  | r, ps => r +:+ join "/" ps
  end.

(** [q] lies under [p]: same root, and the components of [p] come
    first. *)
Definition under (p q : Path) : Prop :=
  root q = root p /\ exists rest, parts q = parts p ++ rest.

(** [q] lies inside [p]: under it, and no component below [p] is [..],
    which would lead out of [p] again. *)
Definition inside (p q : Path) : Prop :=
  root q = root p /\
  exists rest, parts q = parts p ++ rest /\ Forall (fun x => x <> "..") rest.

End PurePath.

Abbreviation Path := PurePath.Path.

Declare Scope path_scope.
Delimit Scope path_scope with path.
Infix "/" := PurePath.truediv : path_scope.

(** ** The file store *)

Module Os.
Import PurePath.

(** A regular file holds text, or bytes that are not the encoding of
    any text. *)
Inductive node : Type :=
  | File (contents : string)
  | Dir
  | Undecodable (bytes : string).

#[global] Instance node_eq_dec : EqDecision node.
Proof. solve_decision. Defined.

Abbreviation FS := (gmap Path node).

(** What is at [p]; the root and the working directory are always
    there. *)
Definition stat (fs : FS) (p : Path) : option node :=
  match parts p with
  | [] => Some Dir
  | _ => fs !! p
  end.

Definition is_dir (p : Path) (fs : FS) : bool :=
  match stat fs p with
  | Some Dir => true
  | _ => false
  end.

Definition is_file (p : Path) (fs : FS) : bool :=
  match stat fs p with
  | Some (File _) | Some (Undecodable _) => true
  | _ => false
  end.

(** No directory above [p] is taken by a regular file. *)
Definition can_hold (fs : FS) (p : Path) : bool :=
  forallb (fun a => negb (is_file a fs)) (parents p).

(** Creating the entry [p] below an existing directory: the failure of
    [mkdir(2)] and of [open(2)] with [O_CREAT] when [p] is not there. *)
Definition create_entry (p : Path) (n : node) : M FS unit :=
  fun fs =>
    match stat fs (parent p) with
    | Some Dir => (<[p := n]> fs, Return tt)
    | Some _ => (fs, Raise NotADirectoryError)
    | None => (fs, Raise FileNotFoundError)
    end.

(** [os.mkdir(p)] *)
Definition os_mkdir (p : Path) : M FS unit :=
  fun fs =>
    match stat fs p with
    | Some _ => (fs, Raise FileExistsError)
    | None => create_entry p Dir fs
    end.

(** The handler [except OSError] of [Path.mkdir] with [exist_ok]. *)
Definition exist_ok_handler (p : Path) (e : exn) : M FS unit :=
  fun fs => if is_dir p fs then (fs, Return tt) else (fs, Raise e).

(** [p.mkdir(parents=False, exist_ok=True)] *)
Definition mkdir_here (p : Path) : M FS unit :=
  fun fs =>
    match os_mkdir p fs with
    | (fs', Return tt) => (fs', Return tt)
    | (fs', Raise FileNotFoundError) => (fs', Raise FileNotFoundError)
    | (fs', Raise e) => exist_ok_handler p e fs'
    end.

(** [p.mkdir(parents=True, exist_ok=True)] for [p] of root [r] and
    components [rparts], innermost first: the recursion of [Path.mkdir]
    goes to the parent, one component less. *)
Fixpoint mkdir_rec (r : string) (rparts : list string) : M FS unit :=
  fun fs =>
    let p := mk r (rev rparts) in
    match os_mkdir p fs with
    | (fs', Return tt) => (fs', Return tt)
    | (fs', Raise FileNotFoundError) =>
        match rparts with
        | [] => (fs', Raise FileNotFoundError)
        | _ :: rest => (mkdir_rec r rest >> mkdir_here p) fs'
        end
    | (fs', Raise e) => exist_ok_handler p e fs'
    end.

Definition mkdir (p : Path) : M FS unit :=
  mkdir_rec (root p) (rev (parts p)).

(** [p.touch(exist_ok=True)]: [utime] succeeds on anything that exists;
    otherwise the file is created empty. *)
Definition touch (p : Path) : M FS unit :=
  fun fs =>
    match stat fs p with
    | Some _ => (fs, Return tt)
    | None => create_entry p (File EmptyString) fs
    end.

(** The text mode of [open] on reading: the line ends [\r\n] and [\r]
    become [\n]. *)
Fixpoint universal_newlines (s : string) : string :=
  match s with
  | EmptyString => EmptyString
  | String c s' =>
      if decide (c = "013"%char) then
        String "010"%char
          match s' with
          | EmptyString => EmptyString
          | String d s'' =>
              if decide (d = "010"%char) then universal_newlines s''
              else universal_newlines s'
          end
      else String c (universal_newlines s')
  end.

(** [p.read_text()]: the bytes of the file are decoded, and the line ends
    translated. *)
Definition read_text (p : Path) : M FS string :=
  fun fs =>
    match stat fs p with
    | Some (File c) => (fs, Return (universal_newlines c))
    | Some (Undecodable _) => (fs, Raise UnicodeDecodeError)
    | Some Dir => (fs, Raise IsADirectoryError)
    | None =>
        if is_file (parent p) fs then (fs, Raise NotADirectoryError)
        else (fs, Raise FileNotFoundError)
    end.

(** [p.write_text(data)]: the file is opened in mode [w], truncated and
    filled with [data]. *)
Definition write_text (p : Path) (data : string) : M FS unit :=
  fun fs =>
    match stat fs p with
    | Some Dir => (fs, Raise IsADirectoryError)
    | Some _ => (<[p := File data]> fs, Return tt)
    | None => create_entry p (File data) fs
    end.

(** What [mkdir] does to the store: entries are kept, and directories
    appear along the chain where nothing was. *)
Definition grows (D : Path -> Prop) (fs fs' : FS) : Prop :=
  forall q, stat fs' q = stat fs q \/
            (D q /\ stat fs q = None /\ stat fs' q = Some Dir).

(** What [mkdir] on the parent and [touch] do to the store: entries
    are kept, directories appear where nothing was, and [p] may appear
    as an empty file. *)
Definition only_adds (p : Path) (fs fs' : FS) : Prop :=
  forall q, stat fs' q = stat fs q \/
            (stat fs q = None /\
             (stat fs' q = Some Dir \/
              (q = p /\ stat fs' q = Some (File EmptyString)))).

End Os.

Abbreviation FS := Os.FS.

(** ** The terminal *)

Inductive tty_event : Type :=
  | Line (s : string)
  | Interrupt.

Record Tty : Type := mkTty { stdin : list tty_event; stdout : list string }.

(** [print(s)] *)
Definition print (s : string) : M Tty unit :=
  fun t => (mkTty (stdin t) (stdout t ++ [s]), Return tt).

(** [input(prompt)]: the prompt is written, then one line is read without
    its end of line; the end of the input raises [EOFError] and an
    interrupt [KeyboardInterrupt].  A line is the text that was read,
    kept as its UTF-8 bytes. *)
Definition input (prompt : string) : M Tty string :=
  fun t =>
    let out := stdout t ++ [prompt] in
    match stdin t with
    | [] => (mkTty [] out, Raise EOFError)
    | Interrupt :: rest => (mkTty rest out, Raise KeyboardInterrupt)
    | Line s :: rest => (mkTty rest out, Return s)
    end.

(** [exit(code)] of [site]: raises [SystemExit(code)]. *)
Definition exit {S A} (code : exit_arg) : M S A := raise (SystemExit code).

Record World : Type := mkWorld { term : Tty; files : FS }.

Definition on_term {A} (m : M Tty A) : M World A :=
  fun w => let (t, r) := m (term w) in (mkWorld t (files w), r).

Definition on_files {A} (m : M FS A) : M World A :=
  fun w => let (fs, r) := m (files w) in (mkWorld (term w) fs, r).

Definition of_result {S A} (r : result A) : M S A := fun s => (s, r).

(** ** The script *)

Inductive BaseFolder : Type :=
  | components
  | pages.

Definition BaseFolder_str (b : BaseFolder) : string :=
  match b with
  | components => "components"
  | pages => "pages"
  end.

Module Colors.
Import Str.
Definition HEADER : string := esc +:+ "[95m".
Definition OKBLUE : string := esc +:+ "[94m".
Definition OKCYAN : string := esc +:+ "[96m".
Definition OKGREEN : string := esc +:+ "[92m".
Definition WARNING : string := esc +:+ "[93m".
Definition FAIL : string := esc +:+ "[91m".
Definition ENDC : string := esc +:+ "[0m".
Definition BOLD : string := esc +:+ "[1m".
Definition UNDERLINE : string := esc +:+ "[4m".
End Colors.

Record Element : Type := mkElement { full_path : Path; name : string }.

(** An instance of a subclass of [FileCreator]: the element it was made
    for and its two abstract methods. *)
Record FileCreator : Type := mkFileCreator {
  _element : Element;
  get_absolute_filename : Path;
  _write_file_contents : M FS unit
}.

(** [FileCreator._create_empty_file] *)
Definition _create_empty_file (self : FileCreator) : M FS unit :=
  Os.mkdir (PurePath.parent (get_absolute_filename self)) >>
  Os.touch (get_absolute_filename self).

(** [FileCreator.create] *)
Definition create (self : FileCreator) : M FS unit :=
  _create_empty_file self >> _write_file_contents self.

Module TSX.
Import Str.

(** The text of the template, before [strip]. *)
Definition template (name : string) : string :=
  "import styles from " +:+ dquote +:+ "./" +:+ name +:+ ".module.css"
    +:+ dquote +:+ nl +:+
  nl +:+
  "interface " +:+ name +:+ "Props {" +:+ nl +:+
  "  " +:+ nl +:+
  "}" +:+ nl +:+
  nl +:+
  "const " +:+ name +:+ " = ({}: " +:+ name +:+ "Props) => (" +:+ nl +:+
  "  <div>" +:+ name +:+ "</div>" +:+ nl +:+
  ")" +:+ nl +:+
  nl +:+
  "export default " +:+ name +:+ nl +:+
  "        ".

Definition contents (name : string) : string := strip (template name).

(** The last line as [strip] leaves it: white space at the end of the
    name goes with the white space that ends the template. *)
Definition export_line (name : string) : string :=
  "export default" +:+ rstrip (" " +:+ name).
End TSX.

Definition TSXFileCreator (element : Element) : FileCreator :=
  let filename := (full_path element / (name element +:+ ".tsx"))%path in
  {| _element := element;
     get_absolute_filename := filename;
     _write_file_contents :=
       Os.write_text filename (TSX.contents (name element)) |}.

Definition CSSFileCreator (element : Element) : FileCreator :=
  {| _element := element;
     get_absolute_filename :=
       (full_path element / (name element +:+ ".module.css"))%path;
     _write_file_contents := ret tt |}.

Module Index.
Import Str.
Definition contents (name : string) : string :=
  "export {default} from " +:+ dquote +:+ "./" +:+ name +:+ dquote +:+ ";".
End Index.

Definition IndexFileCreator (element : Element) : FileCreator :=
  let filename := (full_path element / "index.ts")%path in
  {| _element := element;
     get_absolute_filename := filename;
     _write_file_contents :=
       Os.read_text filename >>= fun current_file_contents =>
       if decide (Str.strip current_file_contents <> EmptyString)
       then ret tt
       else Os.write_text filename (Index.contents (name element)) |}.

Module Msg.
Import Str.
Definition base_folder_prompt : string := "c — components, p — pages: ".
Definition again : string := "Не понял, давай ещё раз.".
Definition element_prompt (base_folder : BaseFolder) : string :=
  "Куда кладём? " +:+ BaseFolder_str base_folder +:+ "/".
Definition file_list (filenames : string) : string :=
  nl +:+ "Итак, создаём файлы:" +:+ nl +:+
  Colors.HEADER +:+ tab +:+ filenames +:+ " " +:+ Colors.ENDC +:+ nl +:+ nl.
Definition ok_prompt : string := "Ок? [Y]/N: ".
Definition cancelled : string := "Ок, выходим, ничего не создал.".
Definition done_all : string := "Всё создал и весь такой молодец!".
End Msg.

Section Script.

(** The path of the script file, and [Path.resolve], which reads the file
    store and changes nothing. *)
Variable __file__ : string.
Variable resolve : FS -> Path -> Path.

Definition SRC_DIR : Path :=
  (PurePath.parent (PurePath.of_string __file__) / "src")%path.

(** [FileCreator.get_relative_filename] *)
Definition get_relative_filename (self : FileCreator) (fs : FS) : string :=
  let relative_path_start_index :=
    (1 + Str.len (PurePath.str (resolve fs SRC_DIR)))%nat in
  Str.drop relative_path_start_index
    (PurePath.str (resolve fs (get_absolute_filename self))).

(** *** [AskParams] *)

Definition _parse_as_element (element_str : string)
    (base_folder : BaseFolder) : result Element :=
  let element_as_list := Str.split "/" element_str in
  match PyList.getitem element_as_list (-1) with
  | Raise e => Raise e
  | Return element_name =>
      let relative_path :=
        if 1 <? Z.of_nat (length element_as_list)
        then Str.join "/" (PyList.slice_to element_as_list (-1))
        else element_name in
      Return {| full_path :=
                  (SRC_DIR / BaseFolder_str base_folder / relative_path)%path;
                name := element_name |}
  end.

(** The loop of [_ask_base_folder], on the pending input [evs] and the
    output so far: one line is consumed in every round. *)
Fixpoint _ask_base_folder_loop (evs : list tty_event) (out : list string)
    {struct evs} : Tty * result BaseFolder :=
  let out := out ++ [Msg.base_folder_prompt] in
  match evs with
  | [] => (mkTty [] out, Raise EOFError)
  | Interrupt :: rest => (mkTty rest out, Raise KeyboardInterrupt)
  | Line s :: rest =>
      let answer := Str.lower (Str.strip s) in
      if decide (answer = "c") then (mkTty rest out, Return components)
      else if decide (answer = "p") then (mkTty rest out, Return pages)
      else _ask_base_folder_loop rest (out ++ [Msg.again])
  end.

Definition _ask_base_folder : M Tty BaseFolder :=
  fun t => _ask_base_folder_loop (stdin t) (stdout t).

Definition _ask_element (base_folder : BaseFolder) : M Tty string :=
  input (Msg.element_prompt base_folder) >>= fun s => ret (Str.strip s).

Definition ask : M Tty Element :=
  _ask_base_folder >>= fun base_folder =>
  _ask_element base_folder >>= fun element_str =>
  of_result (_parse_as_element element_str base_folder).

(** The loop of [ask_ok], after the file names are joined. *)
Fixpoint ask_ok_loop (filenames : string) (evs : list tty_event)
    (out : list string) {struct evs} : Tty * result unit :=
  let out := out ++ [Msg.file_list filenames] ++ [Msg.ok_prompt] in
  match evs with
  | [] => (mkTty [] out, Raise EOFError)
  | Interrupt :: rest => (mkTty rest out, Raise KeyboardInterrupt)
  | Line s :: rest =>
      let answer := Str.lower (Str.strip s) in
      if decide (answer = "y" \/ answer = EmptyString)
      then (mkTty rest out, Return tt)
      else if decide (answer = "n")
      then (mkTty rest out, Raise (SystemExit (ExitStr Msg.cancelled)))
      else ask_ok_loop filenames rest (out ++ [Msg.again])
  end.

Definition ask_ok (filenames : list string) : M Tty unit :=
  let filenames := Str.join (Str.nl +:+ Str.tab) filenames in
  fun t => ask_ok_loop filenames (stdin t) (stdout t).

(** *** [ElementFilesCreator] *)

Record ElementFilesCreator : Type := mkElementFilesCreator {
  efc_element : Element;
  _file_creators : list FileCreator
}.

Definition ElementFilesCreator_init (element : Element)
    : ElementFilesCreator :=
  {| efc_element := element; _file_creators := [] |}.

Definition register_file_creators (self : ElementFilesCreator)
    (file_creators : list (Element -> FileCreator)) : ElementFilesCreator :=
  fold_left
    (fun self fc =>
       {| efc_element := efc_element self;
          _file_creators := _file_creators self ++ [fc (efc_element self)] |})
    file_creators self.

Fixpoint create_each (file_creators : list FileCreator) : M FS unit :=
  match file_creators with
  | [] => ret tt
  | file_creator :: rest => create file_creator >> create_each rest
  end.

Definition ElementFilesCreator_create (self : ElementFilesCreator)
    : M FS unit :=
  create_each (_file_creators self).

Definition get_relative_filenames (self : ElementFilesCreator) (fs : FS)
    : list string :=
  map (fun fc => get_relative_filename fc fs) (_file_creators self).

(** *** [main] and the script's last lines *)

Definition main : M World unit :=
  on_term ask >>= fun element =>
  let element_creator :=
    register_file_creators (ElementFilesCreator_init element)
      [TSXFileCreator; CSSFileCreator; IndexFileCreator] in
  (fun w => (w, Return (get_relative_filenames element_creator (files w))))
    >>= fun filenames =>
  on_term (ask_ok filenames) >>
  on_files (ElementFilesCreator_create element_creator) >>
  on_term (print Msg.done_all).

(** [try: main() except KeyboardInterrupt: pass] *)
Definition script : M World unit :=
  fun w =>
    match main w with
    | (w', Raise KeyboardInterrupt) => (w', Return tt)
    | r => r
    end.

(** What the interpreter reports when the script ends. *)
Inductive diagnostic : Type :=
  | Message (s : string)
  | Traceback (e : exn).

Record Exit : Type := mkExit {
  world : World;
  stderr : list diagnostic;
  status : Z
}.

(** The end of the interpreter: status [0] after a normal end and after
    [SystemExit(None)]; a [SystemExit] with any other object prints the
    object on the error stream and gives status [1], as does an
    exception nobody caught. *)
Definition run (w : World) : Exit :=
  match script w with
  | (w', Return tt) => mkExit w' [] 0
  | (w', Raise (SystemExit ExitNone)) => mkExit w' [] 0
  | (w', Raise (SystemExit (ExitStr msg))) => mkExit w' [Message msg] 1
  | (w', Raise e) => mkExit w' [Traceback e] 1
  end.

(** A line the confirmation prompt does not know. *)
Definition not_an_answer (l : string) : Prop :=
  let answer := Str.lower (Str.strip l) in
  answer <> "y" /\ answer <> EmptyString /\ answer <> "n".

(** What the confirmation prompt has printed after [n] lines it did not
    know. *)
Fixpoint after_retries (filenames : string) (n : nat) (out : list string)
    : list string :=
  match n with
  | O => out
  | S n' =>
      after_retries filenames n'
        (out ++ [Msg.file_list filenames] ++ [Msg.ok_prompt] ++ [Msg.again])
  end.

(** The element creator [main] builds for an element. *)
Definition creator_of (element : Element) : ElementFilesCreator :=
  register_file_creators (ElementFilesCreator_init element)
    [TSXFileCreator; CSSFileCreator; IndexFileCreator].

(** The file names [main] shows for an element. *)
Definition shown_names (element : Element) (fs : FS) : list string :=
  get_relative_filenames (creator_of element) fs.

End Script.

(** The invariant the data model asks of an element made for the base
    folder [B]: a name that is not empty and has no slash, and a directory
    inside [SRC_DIR / B]. *)
Definition Element_invariant (file : string) (B : BaseFolder) (e : Element)
    : Prop :=
  name e <> EmptyString /\
  Str.no_sep "/" (name e) /\
  PurePath.inside (SRC_DIR file / BaseFolder_str B)%path (full_path e).

(** ** A sample run: the script in [/app], the element [Button] *)

Module Sample.
Import PurePath Os.

Definition file : string := "/app/createcomponent.py".

(** Without symbolic links and for an absolute path without [..],
    [resolve] gives the path back. *)
Definition resolve (fs : FS) (p : Path) : Path := p.

Definition Button : Element :=
  {| full_path := mk "/" ["app"; "src"; "components"; "Button"];
     name := "Button" |}.

Definition folder : list string := ["app"; "src"; "components"; "Button"].

(** The no-break space U+00A0 and the ideographic space U+3000, as
    UTF-8 has them. *)
Definition nbsp : string := String "194" (String "160" EmptyString).
Definition ideographic_space : string :=
  String "227" (String "128" (String "128" EmptyString)).

Definition world (lines : list string) (fs : FS) : World :=
  mkWorld (mkTty (map Line lines) []) fs.

End Sample.

(** ** Further notions for the statements *)

(** The text of the index file after [create]: what it held, when that was
    not blank, and the export of the element otherwise. *)
Definition index_after (N : string) (before : option Os.node) : string :=
  match before with
  | Some (Os.File c) =>
      if decide (Str.strip c <> EmptyString) then c else Index.contents N
  | _ => Index.contents N
  end.

(** What one file creator leaves of the store outside its own file [p]:
    entries stay as they are, and directories may appear above [p] where
    nothing was. *)
Definition leaves_rest (p : Path) (fs fs' : FS) : Prop :=
  forall q, q <> p ->
    Os.stat fs' q = Os.stat fs q \/
    ((length (PurePath.parts q) < length (PurePath.parts p))%nat /\
     Os.stat fs q = None /\ Os.stat fs' q = Some Os.Dir).

(** The base folder a line stands for at the category prompt. *)
Definition category_of (l : string) : option BaseFolder :=
  let answer := Str.lower (Str.strip l) in
  if decide (answer = "c") then Some components
  else if decide (answer = "p") then Some pages
  else None.

(** What the category prompt has printed after [n] lines it did not
    know. *)
Fixpoint category_retries (n : nat) (out : list string) : list string :=
  match n with
  | O => out
  | S n' => category_retries n' (out ++ [Msg.base_folder_prompt] ++ [Msg.again])
  end.

(** * Properties *)

(** ** Strings and lists *)

Module StrFacts.
Import Str.

Lemma app_nil (t : string) : EmptyString +:+ t = t.
Proof. reflexivity. Qed.

Lemma app_cons (c : ascii) (s t : string) :
  String c s +:+ t = String c (s +:+ t).
Proof. reflexivity. Qed.

Lemma app_nil_r (s : string) : s +:+ EmptyString = s.
Proof. induction s as [|c s IH]; [done|]. by rewrite app_cons, IH. Qed.

Lemma app_assoc (s t u : string) : (s +:+ t) +:+ u = s +:+ t +:+ u.
Proof.
  induction s as [|c s IH]; [done|]. by rewrite !app_cons, IH.
Qed.

Lemma split_not_nil (sep : ascii) (s : string) : split sep s <> [].
Proof.
  destruct s as [|c s]; simpl; [done|].
  destruct (decide (c = sep)); [done|]. by destruct (split sep s).
Qed.

Lemma split_no_sep (sep : ascii) (s : string) :
  Forall (no_sep sep) (split sep s).
Proof.
  induction s as [|c s IH]; simpl.
  - by constructor.
  - destruct (decide (c = sep)).
    + by constructor.
    + destruct (split sep s) as [|x xs].
      * by repeat constructor.
      * inversion IH; subst. by constructor.
Qed.

(** A string without the separator is its own single segment. *)
Lemma split_id (sep : ascii) (s : string) :
  no_sep sep s -> split sep s = [s].
Proof.
  induction s as [|c s IH]; simpl; [done|].
  intros [Hc Hs]. destruct (decide (c = sep)); [done|]. by rewrite IH.
Qed.

(** Splitting [p], the separator, and a last segment [n]. *)
Lemma split_app_sep (sep : ascii) (p n : string) :
  no_sep sep n ->
  split sep (p +:+ String sep n) = split sep p ++ [n].
Proof.
  intros Hn. induction p as [|c p IH].
  - rewrite app_nil. simpl. destruct (decide (sep = sep)); [|done].
    by rewrite split_id.
  - rewrite app_cons. simpl. destruct (decide (c = sep)).
    + by rewrite IH.
    + rewrite IH. destruct (split sep p) as [|x xs] eqn:E; [|done].
      by apply split_not_nil in E.
Qed.

(** Splitting a first segment [x], the separator, and a rest. *)
Lemma split_cons_sep (sep : ascii) (x t : string) :
  no_sep sep x ->
  split sep (x +:+ String sep t) = x :: split sep t.
Proof.
  induction x as [|c x IH].
  - intros _. rewrite app_nil. simpl. by destruct (decide (sep = sep)).
  - intros [Hc Hx]. rewrite app_cons. simpl.
    destruct (decide (c = sep)); [done|]. by rewrite IH.
Qed.

Lemma join_cons (sep x y : string) (ys : list string) :
  join sep (x :: y :: ys) = x +:+ sep +:+ join sep (y :: ys).
Proof. reflexivity. Qed.

(** Joining the segments gives the string back. *)
Lemma join_split (sep : ascii) (s : string) :
  join (String sep EmptyString) (split sep s) = s.
Proof.
  induction s as [|c s IH]; [done|]. cbn [split].
  destruct (split sep s) as [|x xs] eqn:E.
  { by apply split_not_nil in E. }
  destruct (decide (c = sep)) as [->|Hc].
  - by rewrite join_cons, IH, app_nil, app_cons, app_nil.
  - destruct xs as [|y ys].
    + cbn [join] in *. by rewrite IH.
    + rewrite join_cons in *. by rewrite app_cons, IH.
Qed.

(** Splitting what was joined gives the segments back. *)
Lemma split_join (sep : ascii) (l : list string) :
  l <> [] -> Forall (no_sep sep) l ->
  split sep (join (String sep EmptyString) l) = l.
Proof.
  induction l as [|x [|y ys] IH]; [done| |].
  - intros _ H. inversion H; subst. by apply split_id.
  - intros _ H. inversion H as [|? ? Hx Hl]; subst.
    rewrite join_cons, app_cons, app_nil.
    rewrite split_cons_sep by done. by rewrite IH.
Qed.

Lemma join_snoc (sep x : string) (l : list string) :
  l <> [] -> join sep (l ++ [x]) = join sep l +:+ sep +:+ x.
Proof.
  induction l as [|y [|z zs] IH]; [done|done|]. intros _.
  change ((y :: z :: zs) ++ [x]) with (y :: z :: (zs ++ [x])).
  rewrite !join_cons. change (z :: zs ++ [x]) with ((z :: zs) ++ [x]).
  rewrite IH by done. by rewrite !app_assoc.
Qed.

Lemma endswith_app_sep (c : ascii) (p : string) :
  endswith c (p +:+ String c EmptyString) = true.
Proof.
  induction p as [|d p IH].
  - simpl. by rewrite bool_decide_eq_true.
  - rewrite app_cons.
    destruct (p +:+ String c EmptyString) as [|a t] eqn:E; [|exact IH].
    by destruct p.
Qed.

Lemma endswith_inv (c : ascii) (s : string) :
  endswith c s = true -> exists p, s = p +:+ String c EmptyString.
Proof.
  induction s as [|d s IH]; [done|].
  destruct s as [|a t].
  - simpl. rewrite bool_decide_eq_true. intros ->. by exists EmptyString.
  - intros H. destruct (IH H) as [p ->]. by exists (String d p).
Qed.

(** The last segment is empty exactly for the empty string and for a
    string that ends with the separator. *)
Lemma last_split_empty (sep : ascii) (s : string) :
  List.last (split sep s) EmptyString = EmptyString <->
  s = EmptyString \/ endswith sep s = true.
Proof.
  split.
  - intros H. pose proof (split_not_nil sep s) as Hne.
    pose proof (join_split sep s) as Hj.
    rewrite (app_removelast_last EmptyString Hne), H in Hj.
    destruct (removelast (split sep s)) as [|y ys].
    + by left.
    + right. rewrite join_snoc in Hj by done. rewrite <- Hj.
      rewrite app_cons, app_nil. apply endswith_app_sep.
  - intros [->|H]; [done|].
    apply endswith_inv in H as [p ->].
    rewrite split_app_sep by done. apply last_last.
Qed.

Lemma no_sep_startswith (sep : ascii) (s : string) :
  no_sep sep s -> startswith sep s = false.
Proof.
  destruct s as [|c s]; simpl; [done|].
  intros [Hc _]. by rewrite bool_decide_eq_false.
Qed.

Lemma startswith_app (sep : ascii) (s t : string) :
  s <> EmptyString -> startswith sep (s +:+ t) = startswith sep s.
Proof. by destruct s. Qed.

(** The first segment of a string that does not begin with the
    separator is not empty, unless it is the only one. *)
Lemma split_head_not_empty (sep : ascii) (s x y : string)
    (ys : list string) :
  startswith sep s = false -> split sep s = x :: y :: ys ->
  x <> EmptyString.
Proof.
  destruct s as [|c s]; simpl; [done|].
  rewrite bool_decide_eq_false. intros Hc.
  destruct (decide (c = sep)); [done|].
  destruct (split sep s); intros [= <- _]; done.
Qed.

(** The tables of white space have no byte of the ASCII range. *)
Ltac eqb_false t v :=
  replace (t =? v)%N with false by (symmetry; apply N.eqb_neq; lia).

Lemma isspace_low (c : ascii) : isspace c = true -> (N_of_ascii c < 128)%N.
Proof.
  unfold isspace. cbv zeta. intros H.
  apply orb_true_iff in H as [H|H]; apply andb_true_iff in H as [_ H];
    apply N.leb_le in H; lia.
Qed.

Lemma isspace2_low_1 (c d : ascii) :
  (N_of_ascii c < 128)%N -> isspace2 c d = false.
Proof.
  intros H. unfold isspace2. cbv zeta. by eqb_false (N_of_ascii c) 194%N.
Qed.

Lemma isspace2_low_2 (c d : ascii) :
  (N_of_ascii d < 128)%N -> isspace2 c d = false.
Proof.
  intros H. unfold isspace2. cbv zeta.
  eqb_false (N_of_ascii d) 133%N. eqb_false (N_of_ascii d) 160%N.
  by rewrite andb_false_r.
Qed.

Lemma isspace3_low_1 (c d e : ascii) :
  (N_of_ascii c < 128)%N -> isspace3 c d e = false.
Proof.
  intros H. unfold isspace3. cbv zeta.
  eqb_false (N_of_ascii c) 225%N. eqb_false (N_of_ascii c) 226%N.
  by eqb_false (N_of_ascii c) 227%N.
Qed.

Lemma isspace3_low_2 (c d e : ascii) :
  (N_of_ascii d < 128)%N -> isspace3 c d e = false.
Proof.
  intros H. unfold isspace3. cbv zeta.
  eqb_false (N_of_ascii d) 154%N. eqb_false (N_of_ascii d) 128%N.
  eqb_false (N_of_ascii d) 129%N. by rewrite !andb_false_r.
Qed.

Lemma isspace3_low_3 (c d e : ascii) :
  (N_of_ascii e < 128)%N -> isspace3 c d e = false.
Proof.
  intros H. unfold isspace3. cbv zeta.
  eqb_false (N_of_ascii e) 128%N. eqb_false (N_of_ascii e) 168%N.
  eqb_false (N_of_ascii e) 169%N. eqb_false (N_of_ascii e) 175%N.
  eqb_false (N_of_ascii e) 159%N.
  replace (128 <=? N_of_ascii e)%N with false
    by (symmetry; apply N.leb_gt; lia).
  by rewrite !andb_false_r.
Qed.

(** A byte of the ASCII range that is not white space ends every run of
    white space before it. *)
Lemma all_space_barrier_le (n : nat) (x : string) (c : ascii) (y : string) :
  (String.length x <= n)%nat ->
  (N_of_ascii c < 128)%N -> isspace c = false ->
  all_space (x +:+ String c y) = false.
Proof.
  revert x. induction n as [|n IH]; intros x Hl Hc Hs.
  - destruct x as [|a x]; [|simpl in Hl; lia]. rewrite app_nil.
    cbn [all_space]. rewrite Hs. destruct y as [|d y]; [done|].
    rewrite isspace2_low_1 by done. destruct y as [|e y]; [done|].
    by rewrite isspace3_low_1.
  - destruct x as [|a x].
    { apply IH; [simpl; lia|done|done]. }
    simpl in Hl. rewrite app_cons. cbn [all_space].
    destruct (isspace a); [apply IH; [lia|done|done]|].
    destruct x as [|d x].
    { rewrite app_nil, isspace2_low_2 by done.
      destruct y as [|e y]; [done|]. by rewrite isspace3_low_2. }
    simpl in Hl. rewrite app_cons.
    destruct (isspace2 a d); [apply IH; [lia|done|done]|].
    destruct x as [|e x].
    { by rewrite app_nil, isspace3_low_3. }
    simpl in Hl. rewrite app_cons.
    destruct (isspace3 a d e); [apply IH; [lia|done|done]|done].
Qed.

Lemma all_space_barrier (x : string) (c : ascii) (y : string) :
  (N_of_ascii c < 128)%N -> isspace c = false ->
  all_space (x +:+ String c y) = false.
Proof. by apply (all_space_barrier_le (String.length x)). Qed.

Lemma rstrip_barrier (x : string) (c : ascii) (y : string) :
  (N_of_ascii c < 128)%N -> isspace c = false ->
  rstrip (x +:+ String c y) = x +:+ String c (rstrip y).
Proof.
  intros Hc Hs. induction x as [|a x IH].
  - rewrite !app_nil. cbn [rstrip].
    pose proof (all_space_barrier EmptyString c y Hc Hs) as H.
    rewrite app_nil in H. by rewrite H.
  - rewrite !app_cons. cbn [rstrip].
    pose proof (all_space_barrier (String a x) c y Hc Hs) as H.
    rewrite app_cons in H. by rewrite H, IH.
Qed.

(** One more white space of one byte at the end. *)
Lemma all_space_snoc_le (n : nat) (v : string) (c : ascii) :
  (String.length v <= n)%nat -> isspace c = true ->
  all_space (v +:+ String c EmptyString) = all_space v.
Proof.
  revert v. induction n as [|n IH]; intros v Hl Hs.
  - destruct v as [|a v]; [|simpl in Hl; lia]. rewrite app_nil.
    cbn [all_space]. by rewrite Hs.
  - destruct v as [|a v].
    { apply IH; [simpl; lia|done]. }
    pose proof (isspace_low c Hs) as Hc.
    simpl in Hl. rewrite app_cons. cbn [all_space].
    destruct (isspace a); [apply IH; [lia|done]|].
    destruct v as [|d v].
    { by rewrite app_nil, isspace2_low_2. }
    simpl in Hl. rewrite app_cons.
    destruct (isspace2 a d); [apply IH; [lia|done]|].
    destruct v as [|e v].
    { by rewrite app_nil, isspace3_low_3. }
    simpl in Hl. rewrite app_cons.
    destruct (isspace3 a d e); [apply IH; [lia|done]|done].
Qed.

Lemma rstrip_snoc (v : string) (c : ascii) :
  isspace c = true -> rstrip (v +:+ String c EmptyString) = rstrip v.
Proof.
  intros Hs. induction v as [|a v IH].
  - rewrite app_nil. cbn [rstrip all_space]. by rewrite Hs.
  - rewrite app_cons. cbn [rstrip]. rewrite <- app_cons.
    rewrite (all_space_snoc_le (String.length (String a v))) by done.
    by rewrite IH.
Qed.

(** White space of one byte at the end goes. *)
Lemma rstrip_app_blank (s t : string) :
  Forall (fun c => isspace c = true) (list_ascii_of_string t) ->
  rstrip (s +:+ t) = rstrip s.
Proof.
  revert s. induction t as [|c t IH]; intros s Ht.
  - by rewrite app_nil_r.
  - simpl in Ht. inversion Ht as [|? ? Hc Ht']; subst.
    replace (s +:+ String c t) with ((s +:+ String c EmptyString) +:+ t)
      by (by rewrite app_assoc).
    by rewrite IH, rstrip_snoc.
Qed.

(** A run of white space in front. *)
Lemma all_space_app_le (n : nat) (v t : string) :
  (String.length v <= n)%nat -> all_space v = true ->
  all_space (v +:+ t) = all_space t.
Proof.
  revert v. induction n as [|n IH]; intros v Hl Hv.
  - destruct v as [|a v]; [done|simpl in Hl; lia].
  - destruct v as [|a v]; [done|].
    simpl in Hl. rewrite app_cons. cbn [all_space] in *.
    destruct (isspace a); [apply IH; [lia|done]|].
    destruct v as [|d v]; [done|].
    simpl in Hl. rewrite app_cons.
    destruct (isspace2 a d); [apply IH; [lia|done]|].
    destruct v as [|e v]; [done|].
    simpl in Hl. rewrite app_cons.
    destruct (isspace3 a d e); [apply IH; [lia|done]|done].
Qed.

Lemma rstrip_blank (s : string) :
  all_space s = true -> rstrip s = EmptyString.
Proof. destruct s as [|c s]; [done|]. cbn [rstrip]. by intros ->. Qed.

(** What [rstrip] removes is white space. *)
Lemma rstrip_rest (s : string) :
  exists t, s = rstrip s +:+ t /\ all_space t = true.
Proof.
  induction s as [|c s (t & E & Ht)].
  - by exists EmptyString.
  - cbn [rstrip]. destruct (all_space (String c s)) eqn:Hs.
    + by exists (String c s).
    + exists t. by rewrite app_cons, <- E.
Qed.

(** Joining all segments but the last of a string that does not begin
    with the separator gives a string that does not begin with it. *)
Lemma join_removelast_startswith (sep : ascii) (s : string) :
  startswith sep s = false ->
  startswith sep
    (join (String sep EmptyString) (removelast (split sep s))) = false.
Proof.
  intros Hs. pose proof (split_no_sep sep s) as Hno.
  destruct (split sep s) as [|x [|y ys]] eqn:E; [done|done|].
  apply (split_head_not_empty _ _ _ _ _ Hs) in E.
  inversion Hno as [|? ? Hx _]; subst.
  change (removelast (x :: y :: ys)) with (x :: removelast (y :: ys)).
  destruct (removelast (y :: ys)) as [|z zs].
  - by apply no_sep_startswith.
  - rewrite join_cons, startswith_app by done. by apply no_sep_startswith.
Qed.

Lemma app_inv_head (s t u : string) : s +:+ t = s +:+ u -> t = u.
Proof.
  induction s as [|c s IH]; [done|]. rewrite !app_cons. intros [= H]. auto.
Qed.

Lemma rstrip_idemp (s : string) : rstrip (rstrip s) = rstrip s.
Proof.
  induction s as [|c s IH]; [done|]. cbn [rstrip].
  destruct (all_space (String c s)) eqn:Hs; [done|].
  cbn [rstrip]. rewrite IH.
  destruct (all_space (String c (rstrip s))) eqn:Hr; [|done].
  destruct (rstrip_rest s) as (t & E & Ht).
  rewrite E, <- app_cons in Hs.
  rewrite (all_space_app_le (String.length (String c (rstrip s)))) in Hs
    by done.
  congruence.
Qed.

Lemma rstrip_strip (s : string) : rstrip (strip s) = strip s.
Proof. apply rstrip_idemp. Qed.

Lemma rstrip_empty (s : string) :
  rstrip s = EmptyString <-> all_space s = true.
Proof.
  split; [|apply rstrip_blank].
  destruct s as [|c s]; [done|]. cbn [rstrip].
  by destruct (all_space (String c s)).
Qed.

(** [lstrip] removes white space only. *)
Lemma all_space_lstrip_le (n : nat) (s : string) :
  (String.length s <= n)%nat -> all_space (lstrip s) = all_space s.
Proof.
  revert s. induction n as [|n IH]; intros s Hl.
  - destruct s as [|a s]; [done|simpl in Hl; lia].
  - destruct s as [|a s]; [done|].
    simpl in Hl. cbn [lstrip all_space]. destruct (isspace a) eqn:Ha.
    { apply IH. lia. }
    destruct s as [|d s]; [cbn [all_space]; by rewrite Ha|].
    simpl in Hl. destruct (isspace2 a d) eqn:Hd.
    { apply IH. lia. }
    destruct s as [|e s]; [cbn [all_space]; by rewrite Ha, Hd|].
    simpl in Hl. destruct (isspace3 a d e) eqn:He.
    { apply IH. lia. }
    cbn [all_space]. by rewrite Ha, Hd, He.
Qed.

(** [strip] leaves nothing exactly of the strings made of white space. *)
Lemma strip_empty (s : string) :
  strip s = EmptyString <-> all_space s = true.
Proof.
  unfold strip. rewrite rstrip_empty.
  by rewrite (all_space_lstrip_le (String.length s)).
Qed.

(** The end of a string that [rstrip] keeps is kept. *)
Lemma rstrip_suffix (x n : string) :
  rstrip (x +:+ n) = x +:+ n -> rstrip n = n.
Proof.
  induction x as [|c x IH]; [done|]. rewrite app_cons. cbn [rstrip].
  destruct (all_space (String c (x +:+ n))); [done|]. intros [= H]. auto.
Qed.

(** The last segment of a string without white space at its end has no
    white space at its end. *)
Lemma rstrip_last_split (sep : ascii) (s : string) :
  rstrip s = s ->
  rstrip (List.last (split sep s) EmptyString)
  = List.last (split sep s) EmptyString.
Proof.
  intros Hs. pose proof (split_not_nil sep s) as Hne.
  pose proof (join_split sep s) as Hj.
  destruct (exists_last Hne) as (l & N & E). rewrite E in *.
  rewrite last_last. destruct l as [|x l].
  - cbn [app join] in Hj. by rewrite Hj.
  - rewrite join_snoc, <- app_assoc in Hj by done.
    rewrite <- Hj in Hs. by apply rstrip_suffix in Hs.
Qed.

End StrFacts.

Module PyListFacts.
Import PyList.

Lemma getitem_last {A} (l : list A) (x : A) :
  getitem (l ++ [x]) (-1) = Return x.
Proof.
  unfold getitem. rewrite length_app. simpl length.
  change (-1 <? 0) with true. cbv iota.
  replace (-1 + Z.of_nat (length l + 1)) with (Z.of_nat (length l)) by lia.
  replace (Z.of_nat (length l) <? 0) with false
    by (symmetry; apply Z.ltb_ge; lia).
  replace (Z.of_nat (length l + 1) <=? Z.of_nat (length l)) with false
    by (symmetry; apply Z.leb_gt; lia).
  simpl. rewrite Nat2Z.id. by rewrite list_lookup_middle.
Qed.

Lemma slice_to_last {A} (l : list A) (x : A) :
  slice_to (l ++ [x]) (-1) = l.
Proof.
  unfold slice_to. rewrite length_app. simpl length.
  change (-1 <? 0) with true. cbv iota.
  replace (Z.to_nat _) with (length l) by lia.
  by rewrite take_app_length.
Qed.

Lemma getitem_last_default {A} (l : list A) (d : A) :
  l <> [] -> getitem l (-1) = Return (List.last l d).
Proof.
  intros H. rewrite (app_removelast_last d H) at 1. apply getitem_last.
Qed.

Lemma slice_to_removelast {A} (l : list A) :
  l <> [] -> slice_to l (-1) = removelast l.
Proof.
  intros H. destruct (exists_last H) as (l' & x & ->).
  by rewrite slice_to_last, removelast_last.
Qed.

End PyListFacts.

(** ** The template *)

Module TSXFacts.
Import Str StrFacts TSX.

(** The end of the template: the white space after the name goes, and
    with it the white space that ends the name. *)
Lemma rstrip_template (A N : string) :
  rstrip ((((A +:+ "export default ") +:+ N) +:+ nl) +:+ "        ") =
  A +:+ "export default" +:+ rstrip (" " +:+ N).
Proof.
  replace ((((A +:+ "export default ") +:+ N) +:+ nl) +:+ "        ")
    with ((A +:+ "export defaul") +:+
          String "t" ((" " +:+ N) +:+ (nl +:+ "        ")))
    by (rewrite !app_assoc; reflexivity).
  rewrite rstrip_barrier by (vm_compute; reflexivity).
  rewrite rstrip_app_blank by (repeat constructor).
  rewrite !app_assoc. reflexivity.
Qed.

(** The text that [strip] leaves of the template. *)
Lemma contents_eq (N : string) :
  contents N =
  "import styles from " +:+ dquote +:+ "./" +:+ N +:+ ".module.css"
    +:+ dquote +:+ nl +:+
  nl +:+
  "interface " +:+ N +:+ "Props {" +:+ nl +:+
  "  " +:+ nl +:+
  "}" +:+ nl +:+
  nl +:+
  "const " +:+ N +:+ " = ({}: " +:+ N +:+ "Props) => (" +:+ nl +:+
  "  <div>" +:+ N +:+ "</div>" +:+ nl +:+
  ")" +:+ nl +:+
  nl +:+
  export_line N.
Proof.
  unfold contents, strip, export_line.
  assert (lstrip (template N) = template N) as -> by reflexivity.
  unfold template. rewrite <- !app_assoc.
  rewrite rstrip_template. rewrite !app_assoc. reflexivity.
Qed.

(** For a name that is not empty and does not end in white space the
    last line is the plain export. *)
Lemma export_line_plain (N : string) :
  N <> EmptyString -> rstrip N = N ->
  export_line N = "export default " +:+ N.
Proof.
  intros HN E. unfold export_line.
  change (" " +:+ N) with (String " " N). cbn [rstrip].
  change (all_space (String " " N)) with (all_space N).
  destruct (all_space N) eqn:Hs.
  - apply rstrip_blank in Hs. congruence.
  - by rewrite E.
Qed.

End TSXFacts.

(** ** Paths *)

Module PathFacts.
Import Str PurePath.

(** Joining a key that does not begin with a slash extends the path. *)
Lemma truediv_relative (p : Path) (key : string) :
  startswith sep key = false ->
  (p / key)%path =
  mk (root p)
     (parts p ++
      filter (fun x => x <> EmptyString /\ x <> ".") (split sep key)).
Proof.
  intros H. unfold truediv, parse_parts, splitroot. rewrite H.
  by destruct (decide (EmptyString = EmptyString)).
Qed.


Lemma truediv_under (p : Path) (key : string) :
  startswith sep key = false -> under p (p / key)%path.
Proof.
  intros H. rewrite truediv_relative by done. split; [done|]. eauto.
Qed.


Lemma parent_snoc (r x : string) (rparts : list string) :
  parent (mk r (rev (x :: rparts))) = mk r (rev rparts).
Proof. unfold parent. simpl. by rewrite removelast_last. Qed.

End PathFacts.

(** ** The parser *)

Section Parser.
Import Str PurePath StrFacts PyListFacts PathFacts.

Variable __file__ : string.

Local Abbreviation SRC := (SRC_DIR __file__).
Local Abbreviation parse := (_parse_as_element __file__).

(** The parser never raises: the name is the last segment, and the
    directory is made of the segments before it, or of the only one. *)
Lemma parse_as_element_eq (B : BaseFolder) (S : string) :
  let segments := split "/" S in
  let N := List.last segments EmptyString in
  parse S B =
  Return {| full_path :=
              (SRC / BaseFolder_str B /
               (if 1 <? Z.of_nat (length segments)
                then join "/" (removelast segments) else N))%path;
            name := N |}.
Proof.
  intros segments N. unfold _parse_as_element. fold segments.
  pose proof (split_not_nil "/" S) as Hne. fold segments in Hne.
  rewrite (getitem_last_default segments EmptyString Hne).
  by rewrite (slice_to_removelast segments Hne).
Qed.

(** The segments the parser joins to [SRC_DIR / B] are segments of the
    input, and splitting what it joins gives them back. *)
Lemma relative_path_segments (S : string) :
  let segments := split "/" S in
  let N := List.last segments EmptyString in
  split "/" (if 1 <? Z.of_nat (length segments)
             then join "/" (removelast segments) else N)
  = (if 1 <? Z.of_nat (length segments)
     then removelast segments else [N]) /\
  (forall x,
     x ∈ (if 1 <? Z.of_nat (length segments)
          then removelast segments else [N]) -> x ∈ segments).
Proof.
  intros segments N.
  pose proof (split_not_nil "/" S) as Hne. fold segments in Hne.
  pose proof (split_no_sep "/" S) as Hno. fold segments in Hno.
  destruct (exists_last Hne) as (l & x & E).
  assert (N = x) as HN by (unfold N; rewrite E; apply last_last).
  rewrite E in *. rewrite removelast_last, HN.
  apply Forall_app in Hno as [Hl Hx]. apply List.Forall_inv in Hx.
  destruct (1 <? _) eqn:Hlen.
  - split.
    + apply split_join; [|done].
      intros El. rewrite El in Hlen. simpl in Hlen. discriminate Hlen.
    + intros y Hy. apply elem_of_app. by left.
  - split; [by apply split_id|].
    intros y Hy. apply elem_of_app. by right.
Qed.


(** C8, as the code has it.  The parser always produces an element; its
    name has no slash; the name is empty exactly when the input is empty
    or ends with a slash; and the directory lies inside [SRC_DIR / B],
    below it through components none of which is [..], whenever the
    input does not begin with a slash and none of its segments is
    [..]. *)
Theorem parse_as_element_invariant (B : BaseFolder) (S : string) :
  exists e : Element,
    parse S B = Return e /\
    no_sep "/" (name e) /\
    (name e = EmptyString <-> S = EmptyString \/ endswith "/" S = true) /\
    (startswith "/" S = false ->
     Forall (fun x => x <> "..") (split "/" S) ->
     inside (SRC / BaseFolder_str B)%path (full_path e)).
Proof.
  eexists. split; [apply parse_as_element_eq|]. cbn [name full_path].
  pose proof (split_not_nil "/" S) as Hne.
  pose proof (split_no_sep "/" S) as Hno.
  split; [|split].
  - rewrite Forall_forall in Hno. apply Hno.
    destruct (exists_last Hne) as (l & x & E). rewrite E, last_last.
    set_solver.
  - apply last_split_empty.
  - intros HS Hdots. destruct (relative_path_segments S) as [Hsplit Hin].
    cbv zeta in Hsplit, Hin.
    assert (startswith "/"
              (if 1 <? Z.of_nat (length (split "/" S))
               then join "/" (removelast (split "/" S))
               else List.last (split "/" S) EmptyString) = false) as Hrel.
    { destruct (1 <? _) eqn:Hlen.
      - by apply (join_removelast_startswith "/" S).
      - apply (no_sep_startswith "/").
        rewrite Forall_forall in Hno. apply Hno.
        destruct (exists_last Hne) as (l & x & E). rewrite E, last_last.
        set_solver. }
    rewrite (truediv_relative _ _ Hrel). split; [done|].
    eexists. split; [reflexivity|]. cbn [parts].
    change sep with "/"%char. rewrite Hsplit.
    rewrite Forall_forall in Hdots. apply Forall_forall.
    intros x Hx. apply Hdots, Hin.
    apply list_elem_of_filter in Hx as [_ Hx]. exact Hx.
Qed.

(** The name of an element parsed from a stripped line, which is what
    [_ask_element] hands over, does not end in white space; when it is not
    empty, the last line of the script file is the plain export. *)
Lemma parsed_name_export_line (B : BaseFolder) (line : string) (e : Element) :
  parse (strip line) B = Return e ->
  rstrip (name e) = name e /\
  (name e <> EmptyString ->
   TSX.export_line (name e) = "export default " +:+ name e).
Proof.
  rewrite parse_as_element_eq. intros [= <-]. cbn [name].
  assert (rstrip (List.last (split "/" (strip line)) EmptyString)
          = List.last (split "/" (strip line)) EmptyString) as H.
  { apply rstrip_last_split. apply rstrip_strip. }
  split; [done|]. intros Hne. by apply TSXFacts.export_line_plain.
Qed.

End Parser.


(** The invariant of the data model fails on the empty input, whose name is
    empty, on an input that begins with a slash, whose directory replaces
    [SRC_DIR / B], and on an input with segments [..], whose directory
    climbs out of [SRC_DIR / B]. *)
Lemma parse_as_element_breaks_invariant :
  (exists e : Element,
     _parse_as_element "/app/createcomponent.py" EmptyString components
       = Return e /\
     name e = EmptyString /\
     ~ Element_invariant "/app/createcomponent.py" components e) /\
  (exists e : Element,
     _parse_as_element "/app/createcomponent.py" "/etc/x" components
       = Return e /\
     full_path e = PurePath.mk "/" ["etc"] /\
     ~ Element_invariant "/app/createcomponent.py" components e) /\
  (exists e : Element,
     _parse_as_element "/app/createcomponent.py" "../../../etc/x" components
       = Return e /\
     full_path e =
       PurePath.mk "/" ["app"; "src"; "components"; ".."; ".."; ".."; "etc"] /\
     ~ Element_invariant "/app/createcomponent.py" components e).
Proof.
  split; [|split].
  - eexists. split; [reflexivity|]. split; [reflexivity|].
    intros [H _]. by apply H.
  - eexists. split; [reflexivity|]. split; [reflexivity|].
    intros (_ & _ & _ & rest & H & _). vm_compute in H. discriminate H.
  - eexists. split; [reflexivity|]. split; [reflexivity|].
    intros (_ & _ & _ & rest & H & Hno). vm_compute in H.
    injection H as <-. inversion Hno as [|? ? Hx _]. by apply Hx.
Qed.


Lemma parse_as_element_invariant_witness :
  exists e : Element,
    _parse_as_element "/app/createcomponent.py" "MyCourses/AuthorCourses"
      pages = Return e /\
    Element_invariant "/app/createcomponent.py" pages e.
Proof.
  destruct (parse_as_element_invariant "/app/createcomponent.py" pages
              "MyCourses/AuthorCourses") as (e & He & Hsep & Hname & Hdir).
  exists e. split; [exact He|]. split; [|split].
  - intros H. apply Hname in H as [H|H]; discriminate H.
  - exact Hsep.
  - apply Hdir; [reflexivity|]. repeat constructor; discriminate.
Defined.

(** ** The file store *)

Module OsFacts.
Import PurePath Os PathFacts.

Lemma stat_root (fs : FS) (p : Path) : parts p = [] -> stat fs p = Some Dir.
Proof. unfold stat. by intros ->. Qed.

Lemma stat_None_parts (fs : FS) (p : Path) :
  stat fs p = None -> parts p <> [].
Proof. intros H E. by rewrite (stat_root fs p E) in H. Qed.

Lemma stat_insert (fs : FS) (p q : Path) (n : node) :
  stat (<[p := n]> fs) q =
  match parts q with
  | [] => Some Dir
  | _ => if decide (p = q) then Some n else stat fs q
  end.
Proof.
  unfold stat. destruct (parts q); [done|].
  rewrite lookup_insert. by destruct (decide (p = q)).
Qed.

Lemma stat_insert_eq (fs : FS) (p : Path) (n : node) :
  parts p <> [] -> stat (<[p := n]> fs) p = Some n.
Proof.
  intros H. rewrite stat_insert. destruct (parts p); [done|].
  by destruct (decide (p = p)).
Qed.

Lemma stat_insert_ne (fs : FS) (p q : Path) (n : node) :
  p <> q -> stat (<[p := n]> fs) q = stat fs q.
Proof.
  intros H. rewrite stat_insert. unfold stat.
  destruct (parts q); [done|]. by destruct (decide (p = q)).
Qed.

Lemma is_dir_stat (fs : FS) (p : Path) :
  is_dir p fs = true <-> stat fs p = Some Dir.
Proof.
  unfold is_dir. destruct (stat fs p) as [[]|]; naive_solver.
Qed.

Lemma is_file_stat (fs : FS) (p : Path) :
  is_file p fs = false <-> stat fs p = None \/ stat fs p = Some Dir.
Proof.
  unfold is_file. destruct (stat fs p) as [[c| |b]|].
  - split; [done|]. by intros [|].
  - split; [by right|done].
  - split; [done|]. by intros [|].
  - split; [by left|done].
Qed.

Lemma not_file_dir (fs : FS) (p : Path) (n : node) :
  is_file p fs = false -> stat fs p = Some n -> n = Dir.
Proof. intros [H|H]%is_file_stat; congruence. Qed.

(** Every path of a chain is at most as deep as the chain is long. *)
Lemma chain_depth (r : string) (rparts : list string) (q : Path) :
  In q (chain r rparts) -> (length (parts q) <= length rparts)%nat.
Proof.
  induction rparts as [|x rest IH]; simpl.
  - intros [<-|[]]. simpl. lia.
  - intros [<-|H].
    + simpl. rewrite length_app, length_rev. simpl. lia.
    + specialize (IH H). lia.
Qed.

Lemma parents_depth (p a : Path) :
  In a (parents p) -> (length (parts a) < length (parts p))%nat.
Proof.
  unfold parents. destruct (rev (parts p)) as [|x rest] eqn:E; [done|].
  intros H%chain_depth.
  assert (length (parts p) = S (length rest)) as ->; [|lia].
  by rewrite <- (length_rev (parts p)), E.
Qed.

(** The chain that [mkdir] walks for the parent of [p] consists of the
    parents of [p], or of the root alone. *)
Lemma can_hold_chain (fs : FS) (p : Path) :
  can_hold fs p = true ->
  forallb (fun a => negb (is_file a fs))
          (chain (root p) (rev (parts (parent p)))) = true.
Proof.
  unfold can_hold, parents, parent. cbn [parts root].
  destruct (parts p) as [|x l] eqn:E using rev_ind.
  - done.
  - rewrite rev_app_distr, removelast_last. by simpl.
Qed.

Lemma mkdir_here_ok (p : Path) (fs : FS) :
  is_dir (parent p) fs = true -> is_file p fs = false ->
  exists fs',
    mkdir_here p fs = (fs', Return tt) /\
    is_dir p fs' = true /\
    grows (eq p) fs fs'.
Proof.
  intros Hpar%is_dir_stat Hfile.
  unfold mkdir_here, os_mkdir, exist_ok_handler, create_entry.
  destruct (stat fs p) as [n|] eqn:E.
  - rewrite (not_file_dir _ _ _ Hfile E) in E.
    assert (is_dir p fs = true) as Hd by by apply is_dir_stat.
    rewrite Hd. exists fs. split; [done|]. split; [done|].
    intros q. by left.
  - rewrite Hpar. eexists. split; [done|].
    pose proof (stat_None_parts _ _ E) as Hne. split.
    + apply is_dir_stat. by apply stat_insert_eq.
    + intros q. destruct (decide (p = q)) as [<-|Hq].
      * right. by rewrite stat_insert_eq.
      * left. by apply stat_insert_ne.
Qed.

Lemma mkdir_rec_ok (r : string) (rparts : list string) (fs : FS) :
  forallb (fun a => negb (is_file a fs)) (chain r rparts) = true ->
  exists fs',
    mkdir_rec r rparts fs = (fs', Return tt) /\
    is_dir (mk r (rev rparts)) fs' = true /\
    grows (fun q => In q (chain r rparts)) fs fs'.
Proof.
  revert fs. induction rparts as [|x rest IH]; intros fs Hfree.
  - exists fs. cbn [mkdir_rec]. unfold os_mkdir, exist_ok_handler.
    assert (stat fs (mk r (rev [])) = Some Dir) as E by by apply stat_root.
    assert (is_dir (mk r (rev [])) fs = true) as Hd by by apply is_dir_stat.
    rewrite E, Hd. split; [done|]. split; [done|]. intros q. by left.
  - cbn [chain forallb] in Hfree.
    apply andb_prop in Hfree as [Hp Hrest].
    apply negb_true_iff in Hp.
    set (p := mk r (rev (x :: rest))) in *.
    cbn [mkdir_rec]. fold p. unfold os_mkdir, create_entry.
    destruct (stat fs p) as [n|] eqn:E.
    + rewrite (not_file_dir _ _ _ Hp E) in E.
      unfold exist_ok_handler.
      assert (is_dir p fs = true) as Hd by by apply is_dir_stat.
      rewrite Hd. exists fs. split; [done|]. split; [done|].
      intros q. by left.
    + pose proof (stat_None_parts _ _ E) as Hne.
      unfold p at 1. rewrite parent_snoc. fold p.
      assert (is_file (mk r (rev rest)) fs = false) as Hpar.
      { destruct rest; cbn [chain forallb] in Hrest;
          apply andb_prop in Hrest as [H _]; by apply negb_true_iff in H. }
      destruct (stat fs (mk r (rev rest))) as [n|] eqn:Epar;
        [rewrite (not_file_dir _ _ _ Hpar Epar) in *|].
      * eexists. split; [done|]. split.
        -- apply is_dir_stat. by apply stat_insert_eq.
        -- intros q. destruct (decide (p = q)) as [<-|Hq].
           ++ right. rewrite stat_insert_eq by done.
              repeat split; [|done]. by left.
           ++ left. by apply stat_insert_ne.
      * destruct (IH fs Hrest) as (fs1 & Hrun & Hdir & Hgrow).
        unfold seq, bind. rewrite Hrun.
        destruct (mkdir_here_ok p fs1) as (fs2 & Hrun2 & Hdir2 & Hgrow2).
        { unfold p. by rewrite parent_snoc. }
        { apply is_file_stat.
          destruct (Hgrow p) as [H|(_ & _ & H)]; [left|right]; congruence. }
        exists fs2. split; [done|]. split; [done|].
        intros q. destruct (Hgrow2 q) as [H2|(<- & H2 & H2')].
        -- rewrite H2. destruct (Hgrow q) as [H|(Hin & H & H')].
           ++ by left.
           ++ right. repeat split; [|done|done]. by right.
        -- right. repeat split; [by left| |done].
           destruct (Hgrow p) as [H|(_ & H & _)]; congruence.
Qed.

Lemma grows_keeps (D : Path -> Prop) (fs fs' : FS) (q : Path) (n : node) :
  grows D fs fs' -> stat fs q = Some n -> stat fs' q = Some n.
Proof. intros H E. destruct (H q) as [H'|(_ & H' & _)]; congruence. Qed.

Lemma grows_not_file (D : Path -> Prop) (fs fs' : FS) (a : Path) :
  grows D fs fs' -> is_file a fs = false -> is_file a fs' = false.
Proof.
  unfold is_file. intros H Hf.
  destruct (H a) as [H'|(_ & _ & H')]; by rewrite H'.
Qed.

Lemma not_in_parent_chain (p : Path) :
  parts p <> [] ->
  ~ In p (chain (root p) (rev (parts (parent p)))).
Proof.
  intros Hne Hin%chain_depth. revert Hin. unfold parent. cbn [parts].
  destruct (exists_last Hne) as (l & x & ->).
  rewrite removelast_last, length_rev, length_app. simpl. lia.
Qed.

Lemma parent_eta (p : Path) :
  mk (root p) (rev (rev (parts (parent p)))) = parent p.
Proof. by rewrite rev_involutive. Qed.

(** [mkdir] on the parent and [touch]: under [can_hold] both succeed,
    what was at [p] stays, and an absent [p] becomes an empty file. *)
Lemma ensure_ok (p : Path) (fs : FS) :
  can_hold fs p = true ->
  exists fs1,
    (mkdir (parent p) >> touch p) fs = (fs1, Return tt) /\
    stat fs1 p = Some (default (File EmptyString) (stat fs p)) /\
    can_hold fs1 p = true /\
    only_adds p fs fs1.
Proof.
  intros Hhold. pose proof (can_hold_chain _ _ Hhold) as Hchain.
  destruct (mkdir_rec_ok _ _ _ Hchain) as (fs0 & Hrun & Hdir & Hgrow).
  rewrite parent_eta in Hdir. apply is_dir_stat in Hdir.
  unfold seq, bind, mkdir. change (root (parent p)) with (root p).
  rewrite Hrun. unfold touch, create_entry.
  assert (Hhold0 : can_hold fs0 p = true).
  { unfold can_hold in *. rewrite forallb_forall in *. intros a Ha.
    apply negb_true_iff. apply (grows_not_file _ _ _ _ Hgrow).
    apply negb_true_iff. by apply Hhold. }
  destruct (stat fs0 p) as [n|] eqn:E0.
  - exists fs0. split; [done|]. split; [|split; [done|]].
    + destruct (Hgrow p) as [H|(Hin & H & _)].
      * by rewrite <- H, E0.
      * exfalso. apply (not_in_parent_chain p); [|done].
        by apply (stat_None_parts fs).
    + intros q. destruct (Hgrow q) as [H|(_ & H & H')]; [by left|].
      right. split; [done|]. by left.
  - rewrite Hdir. pose proof (stat_None_parts _ _ E0) as Hne.
    eexists. split; [done|]. split; [|split].
    + rewrite stat_insert_eq by done.
      destruct (Hgrow p) as [H|(_ & _ & H)]; [|congruence].
      by rewrite <- H, E0.
    + unfold can_hold in *. rewrite forallb_forall in *. intros a Ha.
      specialize (Hhold0 a Ha). unfold is_file in *.
      rewrite stat_insert_ne; [done|].
      intros ->. apply parents_depth in Ha. lia.
    + intros q. destruct (decide (p = q)) as [<-|Hq].
      * right. rewrite stat_insert_eq by done.
        destruct (Hgrow p) as [H|(_ & _ & H)]; [|congruence].
        split; [congruence|]. by right.
      * rewrite stat_insert_ne by done.
        destruct (Hgrow q) as [H|(_ & H & H')]; [by left|].
        right. split; [done|]. by left.
Qed.

Lemma only_adds_keeps (p q : Path) (fs fs' : FS) (n : node) :
  only_adds p fs fs' -> stat fs q = Some n -> stat fs' q = Some n.
Proof. intros H E. destruct (H q) as [H'|[H' _]]; congruence. Qed.

(** Without any assumption: when [mkdir] returns, the directory is
    there. *)
Lemma mkdir_here_dir (p : Path) (fs fs' : FS) :
  mkdir_here p fs = (fs', Return tt) -> is_dir p fs' = true.
Proof.
  unfold mkdir_here, os_mkdir, create_entry, exist_ok_handler.
  destruct (stat fs p) as [n|] eqn:E.
  - destruct (is_dir p fs) eqn:Hd; [|done]. by intros [= <-].
  - assert (is_dir p fs = false) as Hd by (unfold is_dir; by rewrite E).
    destruct (stat fs (parent p)) as [[c| |b]|];
      [by rewrite Hd| |by rewrite Hd|done].
    intros [= <-]. apply is_dir_stat, stat_insert_eq.
    by apply (stat_None_parts fs).
Qed.

Lemma mkdir_rec_dir (r : string) (rparts : list string) (fs fs' : FS) :
  mkdir_rec r rparts fs = (fs', Return tt) ->
  is_dir (mk r (rev rparts)) fs' = true.
Proof.
  destruct rparts as [|x rest]; cbn [mkdir_rec];
    unfold os_mkdir, create_entry, exist_ok_handler;
    set (p := mk r (rev _)).
  - destruct (stat fs p) as [n|] eqn:E.
    + destruct (is_dir p fs) eqn:Hd; [|done]. by intros [= <-].
    + by apply stat_None_parts in E.
  - destruct (stat fs p) as [n|] eqn:E.
    + destruct (is_dir p fs) eqn:Hd; [|done]. by intros [= <-].
    + assert (is_dir p fs = false) as Hd by (unfold is_dir; by rewrite E).
      destruct (stat fs (parent p)) as [[c| |b]|];
        [by rewrite Hd| |by rewrite Hd|].
      * intros [= <-]. apply is_dir_stat, stat_insert_eq.
        by apply (stat_None_parts fs).
      * unfold seq, bind.
        destruct (mkdir_rec r rest fs) as [fs1 [[]|e]]; [|done].
        apply mkdir_here_dir.
Qed.

(** When [mkdir] on the parent and [touch] return, [p] exists below a
    directory. *)
Lemma ensure_exists (p : Path) (fs fs1 : FS) :
  (mkdir (parent p) >> touch p) fs = (fs1, Return tt) ->
  is_Some (stat fs1 p) /\ is_dir (parent p) fs1 = true.
Proof.
  unfold seq, bind, mkdir.
  destruct (mkdir_rec _ _ fs) as [fs0 [[]|e]] eqn:Hrun; [|done].
  apply mkdir_rec_dir in Hrun. change (root (parent p)) with (root p) in Hrun.
  rewrite parent_eta in Hrun.
  unfold touch, create_entry.
  destruct (stat fs0 p) as [n|] eqn:E.
  - intros [= <-]. by rewrite E.
  - destruct (stat fs0 (parent p)) as [[c| |b]|] eqn:Ep; [done| |done|done].
    intros [= <-]. pose proof (stat_None_parts _ _ E) as Hne.
    rewrite stat_insert_eq by done. split; [done|].
    apply is_dir_stat. rewrite stat_insert_ne; [done|].
    intros Heq. rewrite <- Heq in Ep. congruence.
Qed.

(** The translation of the line ends changes white space into white
    space and nothing else. *)
Lemma all_space_universal_le (n : nat) (s : string) :
  (String.length s <= n)%nat ->
  Str.all_space (universal_newlines s) = Str.all_space s.
Proof.
  revert s. induction n as [|n IH]; intros s Hl.
  - destruct s as [|a s]; [done|simpl in Hl; lia].
  - destruct s as [|a s]; [done|]. simpl in Hl.
    cbn [universal_newlines].
    destruct (decide (a = "013"%char)) as [->|Ha].
    { cbn [Str.all_space].
      change (Str.isspace "010") with true.
      change (Str.isspace "013") with true. cbv iota.
      destruct s as [|d s]; [done|]. simpl in Hl.
      destruct (decide (d = "010"%char)) as [->|Hd]; [|apply IH; simpl; lia].
      cbn [Str.all_space]. change (Str.isspace "010") with true. cbv iota.
      apply IH. lia. }
    cbn [Str.all_space]. destruct (Str.isspace a) eqn:Sa; [apply IH; lia|].
    destruct s as [|d s]; [done|]. simpl in Hl.
    cbn [universal_newlines].
    destruct (decide (d = "013"%char)) as [->|Hd].
    { rewrite !StrFacts.isspace2_low_2 by (vm_compute; reflexivity).
      destruct s as [|e s]; [done|].
      rewrite StrFacts.isspace3_low_2 by (vm_compute; reflexivity).
      destruct (decide (e = "010"%char));
        destruct (universal_newlines _);
        by rewrite ?StrFacts.isspace3_low_2 by (vm_compute; reflexivity). }
    destruct (Str.isspace2 a d) eqn:Sd; [apply IH; lia|].
    destruct s as [|e s]; [done|]. simpl in Hl.
    cbn [universal_newlines].
    destruct (decide (e = "013"%char)) as [->|He].
    { by rewrite !StrFacts.isspace3_low_3 by (vm_compute; reflexivity). }
    destruct (Str.isspace3 a d e) eqn:Se; [apply IH; lia|done].
Qed.

(** What is read of a file is blank exactly when the file is. *)
Lemma strip_universal (s : string) :
  Str.strip (universal_newlines s) = EmptyString <->
  Str.strip s = EmptyString.
Proof.
  rewrite !StrFacts.strip_empty.
  by rewrite (all_space_universal_le (String.length s)).
Qed.

End OsFacts.

(** ** The file creators *)

Section Creators.
Import Str PurePath Os OsFacts.

Lemma create_empty_file_ok (self : FileCreator) (fs : FS) :
  can_hold fs (get_absolute_filename self) = true ->
  exists fs1,
    _create_empty_file self fs = (fs1, Return tt) /\
    stat fs1 (get_absolute_filename self) =
      Some (default (File EmptyString)
                    (stat fs (get_absolute_filename self))) /\
    can_hold fs1 (get_absolute_filename self) = true /\
    only_adds (get_absolute_filename self) fs fs1.
Proof. apply ensure_ok. Qed.

Lemma not_dir_cases (fs : FS) (p : Path) :
  is_dir p fs = false -> stat fs p <> Some Dir /\ parts p <> [].
Proof.
  unfold is_dir. intros H. split.
  - by destruct (stat fs p) as [[c| |b]|].
  - intros E. by rewrite (stat_root fs p E) in H.
Qed.

(** C3. Whatever was at [full_path / (name + .tsx)], a regular file of
    any content or nothing, [create] of the script-file creator returns
    and leaves there exactly the stripped template: the import of
    [./name.module.css], the interface [nameProps], the component [name]
    that renders the text [name], and the default export, which for a
    name that is not empty and does not end in white space reads
    [export default name]. *)
Theorem TSXFileCreator_create_overwrites (e : Element) (fs : FS) :
  let p := (full_path e / (name e +:+ ".tsx"))%path in
  can_hold fs p = true -> is_dir p fs = false ->
  get_absolute_filename (TSXFileCreator e) = p /\
  (exists fs',
     create (TSXFileCreator e) fs = (fs', Return tt) /\
     stat fs' p = Some (File (TSX.contents (name e)))) /\
  TSX.contents (name e) =
    "import styles from " +:+ dquote +:+ "./" +:+ name e +:+ ".module.css"
      +:+ dquote +:+ nl +:+
    nl +:+
    "interface " +:+ name e +:+ "Props {" +:+ nl +:+
    "  " +:+ nl +:+
    "}" +:+ nl +:+
    nl +:+
    "const " +:+ name e +:+ " = ({}: " +:+ name e +:+ "Props) => ("
      +:+ nl +:+
    "  <div>" +:+ name e +:+ "</div>" +:+ nl +:+
    ")" +:+ nl +:+
    nl +:+
    TSX.export_line (name e) /\
  (name e <> EmptyString -> rstrip (name e) = name e ->
   TSX.export_line (name e) = "export default " +:+ name e).
Proof.
  intros p Hhold Hnd. split; [done|]. split; [|split].
  - destruct (create_empty_file_ok (TSXFileCreator e) fs Hhold)
      as (fs1 & Hrun & Hstat & _ & _).
    change (get_absolute_filename (TSXFileCreator e)) with p in Hstat.
    destruct (not_dir_cases _ _ Hnd) as [Hcases Hne].
    unfold create, seq, bind. rewrite Hrun.
    cbn [_write_file_contents TSXFileCreator]. fold p.
    unfold write_text. rewrite Hstat.
    destruct (stat fs p) as [[c| |b]|]; [|done| |];
      (eexists; split; [done|]; by apply stat_insert_eq).
  - apply TSXFacts.contents_eq.
  - apply TSXFacts.export_line_plain.
Qed.

(** C2. After [create] of the index-file creator, an index file that was
    absent, empty or made of white space holds exactly the line
    [export {default} from ./name;] with the path in double quotes, and
    an index file that held any other text holds what it held; the text
    that [strip] empties is the text made of white space, of one byte or
    more, and the translation of the line ends on reading makes no
    difference to that.  An index file whose bytes are no text cannot be
    read: [create] raises, and the file is as it was. *)
Theorem IndexFileCreator_create_spec (e : Element) (fs : FS) :
  let p := (full_path e / "index.ts")%path in
  can_hold fs p = true -> is_dir p fs = false ->
  get_absolute_filename (IndexFileCreator e) = p /\
  Index.contents (name e) =
    "export {default} from " +:+ dquote +:+ "./" +:+ name e +:+ dquote
      +:+ ";" /\
  (forall c, strip c = EmptyString <-> all_space c = true) /\
  (stat fs p = None ->
   exists fs',
     create (IndexFileCreator e) fs = (fs', Return tt) /\
     stat fs' p = Some (File (Index.contents (name e)))) /\
  (forall c, stat fs p = Some (File c) -> strip c = EmptyString ->
   exists fs',
     create (IndexFileCreator e) fs = (fs', Return tt) /\
     stat fs' p = Some (File (Index.contents (name e)))) /\
  (forall c, stat fs p = Some (File c) -> strip c <> EmptyString ->
   exists fs',
     create (IndexFileCreator e) fs = (fs', Return tt) /\
     stat fs' p = Some (File c)) /\
  (forall b, stat fs p = Some (Undecodable b) ->
   exists fs',
     create (IndexFileCreator e) fs = (fs', Raise UnicodeDecodeError) /\
     stat fs' p = Some (Undecodable b)).
Proof.
  intros p Hhold Hnd. split; [done|]. split; [done|].
  split; [apply StrFacts.strip_empty|].
  destruct (create_empty_file_ok (IndexFileCreator e) fs Hhold)
    as (fs1 & Hrun & Hstat & _ & _).
  change (get_absolute_filename (IndexFileCreator e)) with p in Hstat.
  destruct (not_dir_cases _ _ Hnd) as [_ Hne].
  unfold create, seq, bind. rewrite Hrun.
  cbn [_write_file_contents IndexFileCreator]. fold p.
  unfold bind, read_text.
  split; [|split; [|split]].
  - intros E. rewrite E in Hstat. cbn in Hstat. rewrite Hstat.
    change (strip (universal_newlines EmptyString)) with EmptyString.
    destruct (decide (EmptyString <> EmptyString)) as [H|_]; [done|].
    unfold write_text. rewrite Hstat. eexists. split; [done|].
    by rewrite stat_insert_eq.
  - intros c E Hc. rewrite E in Hstat. cbn in Hstat. rewrite Hstat.
    apply strip_universal in Hc.
    destruct (decide (strip (universal_newlines c) <> EmptyString))
      as [H|_]; [done|].
    unfold write_text. rewrite Hstat. eexists. split; [done|].
    by rewrite stat_insert_eq.
  - intros c E Hc. rewrite E in Hstat. cbn in Hstat. rewrite Hstat.
    rewrite <- strip_universal in Hc.
    destruct (decide (strip (universal_newlines c) <> EmptyString))
      as [_|H]; [|done].
    by exists fs1.
  - intros b E. rewrite E in Hstat. cbn in Hstat. rewrite Hstat.
    by exists fs1.
Qed.

(** C4. [create] of the style-file creator writes nothing: an absent
    style file is created empty, whatever exists, in the place of the
    style file or anywhere else, is as it was, files appear nowhere else,
    and a second [create] after the first leaves the file that was
    absent empty again. *)
Theorem CSSFileCreator_create_touch_only (e : Element) (fs : FS) :
  let p := (full_path e / (name e +:+ ".module.css"))%path in
  can_hold fs p = true ->
  get_absolute_filename (CSSFileCreator e) = p /\
  exists fs1,
    create (CSSFileCreator e) fs = (fs1, Return tt) /\
    (stat fs p = None -> stat fs1 p = Some (File EmptyString)) /\
    (forall q n, stat fs q = Some n -> stat fs1 q = Some n) /\
    (forall q c, stat fs1 q = Some (File c) ->
                 stat fs q = Some (File c) \/ (q = p /\ c = EmptyString)) /\
    (stat fs p = None ->
     exists fs2,
       create (CSSFileCreator e) fs1 = (fs2, Return tt) /\
       stat fs2 p = Some (File EmptyString)).
Proof.
  intros p Hhold. split; [done|].
  destruct (create_empty_file_ok (CSSFileCreator e) fs Hhold)
    as (fs1 & Hrun & Hstat & Hhold1 & Hadds).
  change (get_absolute_filename (CSSFileCreator e)) with p in *.
  exists fs1. split.
  { unfold create, seq, bind. by rewrite Hrun. }
  split; [by intros E; rewrite Hstat, E|]. split; [|split].
  - intros q n. by apply (only_adds_keeps p).
  - intros q c Hq. destruct (Hadds q) as [H|(_ & [H|[-> H]])].
    + left. congruence.
    + congruence.
    + right. split; [done|]. congruence.
  - intros E.
    destruct (create_empty_file_ok (CSSFileCreator e) fs1 Hhold1)
      as (fs2 & Hrun2 & Hstat2 & _ & _).
    change (get_absolute_filename (CSSFileCreator e)) with p in *.
    exists fs2. split.
    { unfold create, seq, bind. by rewrite Hrun2. }
    by rewrite Hstat2, Hstat, E.
Qed.

(** C10. [create] of the index-file creator runs [_create_empty_file]
    first.  When that raises, [create] raises the same and reads
    nothing.  When it returns, the index file exists below a directory,
    [create] goes on with the content step in that store, and the
    reading there fails neither for a missing file nor for a missing
    parent directory. *)
Theorem IndexFileCreator_read_is_safe (e : Element) (fs : FS) :
  let self := IndexFileCreator e in
  let p := get_absolute_filename self in
  match _create_empty_file self fs with
  | (fs1, Return _) =>
      is_Some (stat fs1 p) /\
      is_dir (parent p) fs1 = true /\
      create self fs = _write_file_contents self fs1 /\
      _write_file_contents self fs1 =
        (read_text p >>= fun current_file_contents =>
         if decide (strip current_file_contents <> EmptyString)
         then ret tt
         else write_text p (Index.contents (name e))) fs1 /\
      snd (read_text p fs1) <> Raise FileNotFoundError /\
      snd (read_text p fs1) <> Raise NotADirectoryError
  | (fs1, Raise err) => create self fs = (fs1, Raise err)
  end.
Proof.
  intros self p.
  destruct (_create_empty_file self fs) as [fs1 [[]|err]] eqn:Hrun.
  - destruct (ensure_exists p fs fs1 Hrun) as [[n Hn] Hd].
    split; [by exists n|]. split; [done|]. split.
    { unfold create, seq, bind. by rewrite Hrun. }
    split; [done|]. unfold read_text. rewrite Hn. by destruct n.
  - unfold create, seq, bind. by rewrite Hrun.
Qed.

End Creators.

(** ** The prompts *)

Section Prompts.
Import Str.

(** The two loops are the loops of the script: one round reads a line
    and either ends or prints and goes round again. *)
Lemma ask_base_folder_unfold (t : Tty) :
  _ask_base_folder t =
  (input Msg.base_folder_prompt >>= fun s =>
   let answer := lower (strip s) in
   if decide (answer = "c") then ret components
   else if decide (answer = "p") then ret pages
   else print Msg.again >> _ask_base_folder) t.
Proof.
  destruct t as [[|[s|] rest] out]; unfold _ask_base_folder, bind, input;
    cbn [stdin stdout _ask_base_folder_loop]; [done| |done].
  destruct (decide (lower (strip s) = "c")); [done|].
  destruct (decide (lower (strip s) = "p")); done.
Qed.

Lemma ask_ok_unfold (filenames : list string) (t : Tty) :
  ask_ok filenames t =
  (print (Msg.file_list (join (nl +:+ tab) filenames)) >>
   input Msg.ok_prompt >>= fun s =>
   let answer := lower (strip s) in
   if decide (answer = "y" \/ answer = EmptyString) then ret tt
   else if decide (answer = "n") then exit (ExitStr Msg.cancelled)
   else print Msg.again >> ask_ok filenames) t.
Proof.
  destruct t as [[|[s|] rest] out];
    unfold ask_ok, seq, bind, input, print;
    cbn [stdin stdout ask_ok_loop]; rewrite <- ?(assoc_L (++));
    [done| |done].
  destruct (decide (_ \/ _)); [done|].
  destruct (decide (lower (strip s) = "n")); [done|].
  unfold ask_ok. cbn [stdin stdout]. by rewrite <- ?(assoc_L (++)).
Qed.

Lemma ask_ok_retries (filenames mid : list string)
    (evs : list tty_event) (out : list string) :
  Forall not_an_answer mid ->
  ask_ok filenames (mkTty (map Line mid ++ evs) out) =
  ask_ok filenames
    (mkTty evs
       (after_retries (join (nl +:+ tab) filenames) (length mid) out)).
Proof.
  intros H. revert out. induction H as [|l mid (Hy & He & Hn) _ IH];
    intros out; [done|].
  unfold ask_ok in *. cbn [map app stdin stdout ask_ok_loop] in *.
  destruct (decide (_ \/ _)) as [[?|?]|_]; [done|done|].
  destruct (decide (lower (strip l) = "n")); [done|].
  rewrite IH. cbn [length after_retries].
  by rewrite <- ?(assoc_L (++)).
Qed.

(** The lines the category prompt read before it returned: lines it
    did not know, and the token of what it returned. *)
Lemma ask_base_folder_inv (evs : list tty_event) (out : list string)
    (t' : Tty) (b : BaseFolder) :
  _ask_base_folder_loop evs out = (t', Return b) ->
  exists (pre : list string) (l : string),
    evs = map Line pre ++ Line l :: stdin t' /\
    Forall (fun x => lower (strip x) <> "c" /\ lower (strip x) <> "p") pre /\
    (b = components /\ lower (strip l) = "c" \/
     b = pages /\ lower (strip l) = "p").
Proof.
  revert out. induction evs as [|[s|] rest IH]; intros out;
    cbn [_ask_base_folder_loop]; [done| |done].
  destruct (decide (lower (strip s) = "c")) as [Hc|Hc].
  { intros [= <- <-]. exists [], s. cbn [stdin]. eauto. }
  destruct (decide (lower (strip s) = "p")) as [Hp|Hp].
  { intros [= <- <-]. exists [], s. cbn [stdin]. eauto. }
  intros (pre & l & -> & Hpre & Hl)%IH.
  exists (s :: pre), l. split; [done|]. split; [|done].
  by constructor.
Qed.

Lemma returned {S} (r : S * result unit) :
  snd r = Return tt -> r = (fst r, Return tt).
Proof. destruct r as [s x]. simpl. by intros ->. Qed.

Lemma on_term_files {A} (m : M Tty A) (w w' : World) (r : result A) :
  on_term m w = (w', r) -> files w' = files w.
Proof.
  unfold on_term. destruct (m (term w)). by intros [= <- _].
Qed.

End Prompts.

Section Program.
Import Str.

Variable __file__ : string.
Variable resolve : FS -> Path -> Path.

Lemma main_unfold (w : World) :
  main __file__ resolve w =
  match on_term (ask __file__) w with
  | (w1, Return element) =>
      match on_term
              (ask_ok (shown_names __file__ resolve element (files w1))) w1
      with
      | (w2, Return _) =>
          (on_files (ElementFilesCreator_create (creator_of element)) >>
           on_term (print Msg.done_all)) w2
      | (w2, Raise e) => (w2, Raise e)
      end
  | (w1, Raise e) => (w1, Raise e)
  end.
Proof.
  unfold main, seq, bind.
  destruct (on_term (ask __file__) w) as [w1 [element|e]]; [|done].
  fold (creator_of element).
  fold (shown_names __file__ resolve element (files w1)).
  by destruct (on_term _ w1) as [w2 [[]|e]].
Qed.

(** The run of a program whose first two prompts gave [el] and whose
    confirmation prompt then reads lines it does not know and a line
    that is [n] after [strip] and [lower]. *)
Lemma declined_main (w w1 : World) (el : Element) (mid : list string)
    (l : string) (rest : list tty_event) :
  on_term (ask __file__) w = (w1, Return el) ->
  stdin (term w1) = map Line mid ++ Line l :: rest ->
  Forall not_an_answer mid ->
  lower (strip l) = "n" ->
  exists out,
    main __file__ resolve w =
    (mkWorld (mkTty rest out) (files w),
     Raise (SystemExit (ExitStr Msg.cancelled))).
Proof.
  intros Hask Hin Hmid Hl. rewrite main_unfold, Hask.
  pose proof (on_term_files _ _ _ _ Hask) as Hfiles.
  unfold on_term. destruct (term w1) as [evs out1]. cbn [stdin] in Hin.
  subst evs. rewrite (ask_ok_retries _ _ _ _ Hmid).
  unfold ask_ok. cbn [stdin stdout ask_ok_loop]. rewrite Hl.
  destruct (decide (_ \/ _)) as [[?|?]|_]; [done|done|].
  destruct (decide ("n" = "n")); [|done]. rewrite Hfiles. by eexists.
Qed.

End Program.

(** ** The prompts, line by line *)

(** C9. The category prompt reads a line, strips it of the white space
    around it and lowers it: [c] gives [components], [p] gives [pages],
    and anything else prints the message of misunderstanding and asks
    again.  The prompt returns only on one of the two tokens: when it
    returns a base folder, the lines it read are lines it did not know
    followed by the token of that folder, and the rest of the input is
    left unread. *)
Theorem ask_base_folder_spec (l : string) (rest : list tty_event)
    (out : list string) :
  let answer := Str.lower (Str.strip l) in
  let asked := out ++ [Msg.base_folder_prompt] in
  (answer = "c" ->
   _ask_base_folder (mkTty (Line l :: rest) out)
   = (mkTty rest asked, Return components)) /\
  (answer = "p" ->
   _ask_base_folder (mkTty (Line l :: rest) out)
   = (mkTty rest asked, Return pages)) /\
  (answer <> "c" -> answer <> "p" ->
   _ask_base_folder (mkTty (Line l :: rest) out)
   = _ask_base_folder (mkTty rest (asked ++ [Msg.again]))) /\
  (forall (t t' : Tty) (b : BaseFolder),
     _ask_base_folder t = (t', Return b) ->
     exists (pre : list string) (last : string),
       stdin t = map Line pre ++ Line last :: stdin t' /\
       Forall (fun x => Str.lower (Str.strip x) <> "c" /\
                        Str.lower (Str.strip x) <> "p") pre /\
       (b = components /\ Str.lower (Str.strip last) = "c" \/
        b = pages /\ Str.lower (Str.strip last) = "p")).
Proof.
  cbv zeta. unfold _ask_base_folder.
  cbn [stdin stdout _ask_base_folder_loop].
  split; [|split; [|split]].
  - intros H. rewrite H. by destruct (decide ("c" = "c")).
  - intros H. rewrite H. destruct (decide ("p" = "c")); [done|].
    by destruct (decide ("p" = "p")).
  - intros Hc Hp. destruct (decide (_ = "c")); [done|].
    by destruct (decide (_ = "p")).
  - intros t t' b. apply ask_base_folder_inv.
Qed.

Lemma ask_base_folder_spec_witness :
  _ask_base_folder (mkTty [Line " C "; Line "x"] [])
  = (mkTty [Line "x"] [Msg.base_folder_prompt], Return components) /\
  _ask_base_folder
    (mkTty [Line (Sample.nbsp +:+ "c" +:+ Sample.ideographic_space)] [])
  = (mkTty [] [Msg.base_folder_prompt], Return components) /\
  _ask_base_folder (mkTty [Line "P"] [])
  = (mkTty [] [Msg.base_folder_prompt], Return pages) /\
  _ask_base_folder (mkTty [Line "cc"; Line "p"] [])
  = (mkTty [] [Msg.base_folder_prompt; Msg.again; Msg.base_folder_prompt],
     Return pages).
Proof.
  split; [|split; [|split]].
  - apply (proj1 (ask_base_folder_spec " C " [Line "x"] [])). reflexivity.
  - apply (proj1 (ask_base_folder_spec
                    (Sample.nbsp +:+ "c" +:+ Sample.ideographic_space)
                    [] [])).
    reflexivity.
  - apply (proj1 (proj2 (ask_base_folder_spec "P" [] []))). reflexivity.
  - rewrite (proj1 (proj2 (proj2 (ask_base_folder_spec "cc" [Line "p"] []))));
      [|discriminate|discriminate].
    apply (proj1 (proj2 (ask_base_folder_spec "p" []
                           [Msg.base_folder_prompt; Msg.again]))).
    reflexivity.
Defined.

(** C7, as the code has it.  The confirmation prompt shows the files,
    reads a line, strips it of the white space around it and lowers it:
    [y] and the empty line, which a line of white space becomes, confirm
    and the prompt returns, [n] raises [SystemExit] with the message of
    cancellation, and anything else, the words [yes] and [no] among it,
    prints the message of misunderstanding and asks again. *)
Theorem ask_ok_spec (filenames : list string) (l : string)
    (rest : list tty_event) (out : list string) :
  let answer := Str.lower (Str.strip l) in
  let shown :=
    out ++ [Msg.file_list (Str.join (Str.nl +:+ Str.tab) filenames)]
        ++ [Msg.ok_prompt] in
  (answer = "y" \/ answer = EmptyString ->
   ask_ok filenames (mkTty (Line l :: rest) out)
   = (mkTty rest shown, Return tt)) /\
  (answer = "n" ->
   ask_ok filenames (mkTty (Line l :: rest) out)
   = (mkTty rest shown, Raise (SystemExit (ExitStr Msg.cancelled)))) /\
  (answer <> "y" -> answer <> EmptyString -> answer <> "n" ->
   ask_ok filenames (mkTty (Line l :: rest) out)
   = ask_ok filenames (mkTty rest (shown ++ [Msg.again]))).
Proof.
  cbv zeta. unfold ask_ok.
  cbn [stdin stdout ask_ok_loop].
  split; [|split].
  - intros H. by destruct (decide (_ \/ _)).
  - intros H. rewrite H.
    destruct (decide (_ \/ _)) as [[?|?]|_]; [done|done|].
    by destruct (decide ("n" = "n")).
  - intros Hy He Hn. destruct (decide (_ \/ _)) as [[?|?]|_]; [done|done|].
    by destruct (decide (_ = "n")).
Qed.

Lemma ask_ok_spec_witness :
  snd (ask_ok ["a.tsx"] (mkTty [Line " Y "] [])) = Return tt /\
  snd (ask_ok ["a.tsx"] (mkTty [Line EmptyString] [])) = Return tt /\
  snd (ask_ok ["a.tsx"] (mkTty [Line Sample.nbsp] [])) = Return tt /\
  snd (ask_ok ["a.tsx"] (mkTty [Line (Sample.nbsp +:+ "N")] []))
  = Raise (SystemExit (ExitStr Msg.cancelled)) /\
  ask_ok ["a.tsx"] (mkTty [Line "yes"; Line "y"] [])
  = ask_ok ["a.tsx"]
      (mkTty [Line "y"]
         [Msg.file_list "a.tsx"; Msg.ok_prompt; Msg.again]).
Proof.
  split; [|split; [|split; [|split]]].
  - rewrite (proj1 (ask_ok_spec ["a.tsx"] " Y " [] [])); [done|].
    left. reflexivity.
  - rewrite (proj1 (ask_ok_spec ["a.tsx"] EmptyString [] [])); [done|].
    right. reflexivity.
  - rewrite (proj1 (ask_ok_spec ["a.tsx"] Sample.nbsp [] [])); [done|].
    right. reflexivity.
  - rewrite (proj1 (proj2 (ask_ok_spec ["a.tsx"] (Sample.nbsp +:+ "N")
                             [] []))); [done|].
    reflexivity.
  - apply (proj2 (proj2 (ask_ok_spec ["a.tsx"] "yes" [Line "y"] [])));
      discriminate.
Defined.

(** The word [yes] is not taken for a confirmation: the prompt asks again
    and reads on.  The word [no] does not end the program: the prompt asks
    again, and a [y] after it confirms. *)
Lemma ask_ok_rejects_words :
  (exists out,
     ask_ok ["a.tsx"] (mkTty [Line "yes"] []) = (mkTty [] out, Raise EOFError)
     /\ In Msg.again out) /\
  (exists out,
     ask_ok ["a.tsx"] (mkTty [Line "no"; Line "y"] [])
     = (mkTty [] out, Return tt)
     /\ In Msg.again out).
Proof.
  split; eexists; (split; [reflexivity|]); cbn; tauto.
Qed.

Lemma TSXFileCreator_create_overwrites_witness :
  let p := PurePath.mk "/" (Sample.folder ++ ["Button.tsx"]) in
  exists fs',
    create (TSXFileCreator Sample.Button) (<[p := Os.File "edited"]> ∅)
    = (fs', Return tt) /\
    Os.stat fs' p = Some (Os.File (TSX.contents "Button")).
Proof.
  refine (proj1 (proj2 (TSXFileCreator_create_overwrites Sample.Button
                          (<[_ := Os.File "edited"]> ∅) _ _))).
  - vm_compute. reflexivity.
  - vm_compute. reflexivity.
Defined.

Lemma IndexFileCreator_create_spec_witness :
  let p := PurePath.mk "/" (Sample.folder ++ ["index.ts"]) in
  (exists fs',
     create (IndexFileCreator Sample.Button)
       (<[p := Os.File (" " +:+ Sample.nbsp)]> ∅)
     = (fs', Return tt) /\
     Os.stat fs' p = Some (Os.File (Index.contents "Button"))) /\
  (exists fs',
     create (IndexFileCreator Sample.Button) (<[p := Os.File "// other"]> ∅)
     = (fs', Return tt) /\
     Os.stat fs' p = Some (Os.File "// other")) /\
  (exists fs',
     create (IndexFileCreator Sample.Button)
       (<[p := Os.Undecodable (String "255" EmptyString)]> ∅)
     = (fs', Raise UnicodeDecodeError) /\
     Os.stat fs' p = Some (Os.Undecodable (String "255" EmptyString))).
Proof.
  intros p. split; [|split].
  - assert (Os.can_hold (<[p := Os.File (" " +:+ Sample.nbsp)]> ∅) p = true)
      as Hhold by (vm_compute; reflexivity).
    assert (Os.is_dir p (<[p := Os.File (" " +:+ Sample.nbsp)]> ∅) = false)
      as Hnd by (vm_compute; reflexivity).
    destruct (IndexFileCreator_create_spec Sample.Button _ Hhold Hnd)
      as (_ & _ & _ & _ & Hblank & _).
    apply (Hblank (" " +:+ Sample.nbsp)).
    + vm_compute. reflexivity.
    + vm_compute. reflexivity.
  - assert (Os.can_hold (<[p := Os.File "// other"]> ∅) p = true) as Hhold
      by (vm_compute; reflexivity).
    assert (Os.is_dir p (<[p := Os.File "// other"]> ∅) = false) as Hnd
      by (vm_compute; reflexivity).
    destruct (IndexFileCreator_create_spec Sample.Button _ Hhold Hnd)
      as (_ & _ & _ & _ & _ & Hkept & _).
    apply (Hkept "// other").
    + vm_compute. reflexivity.
    + vm_compute. discriminate.
  - assert (Os.can_hold
              (<[p := Os.Undecodable (String "255" EmptyString)]> ∅) p = true)
      as Hhold by (vm_compute; reflexivity).
    assert (Os.is_dir p
              (<[p := Os.Undecodable (String "255" EmptyString)]> ∅) = false)
      as Hnd by (vm_compute; reflexivity).
    destruct (IndexFileCreator_create_spec Sample.Button _ Hhold Hnd)
      as (_ & _ & _ & _ & _ & _ & Hbytes).
    apply (Hbytes (String "255" EmptyString)).
    vm_compute. reflexivity.
Defined.

Lemma CSSFileCreator_create_touch_only_witness :
  let p := PurePath.mk "/" (Sample.folder ++ ["Button.module.css"]) in
  (exists fs1,
     create (CSSFileCreator Sample.Button) ∅ = (fs1, Return tt) /\
     Os.stat fs1 p = Some (Os.File EmptyString)) /\
  (exists fs1,
     create (CSSFileCreator Sample.Button) (<[p := Os.File ".a {}"]> ∅)
     = (fs1, Return tt) /\
     Os.stat fs1 p = Some (Os.File ".a {}")).
Proof.
  intros p. split.
  - assert (Os.can_hold ∅ p = true) as Hhold by (vm_compute; reflexivity).
    destruct (proj2 (CSSFileCreator_create_touch_only Sample.Button
                       _ Hhold)) as (fs1 & Hrun & Hnew & _).
    exists fs1. split; [exact Hrun|]. by apply Hnew.
  - assert (Os.can_hold (<[p := Os.File ".a {}"]> ∅) p = true) as Hhold
      by (vm_compute; reflexivity).
    destruct (proj2 (CSSFileCreator_create_touch_only Sample.Button
                       _ Hhold)) as (fs1 & Hrun & _ & Hkept & _).
    exists fs1. split; [exact Hrun|]. by apply Hkept.
Defined.

(** ** The whole program *)

Section Outcome.
Import Str.

Variable __file__ : string.
Variable resolve : FS -> Path -> Path.

Local Abbreviation run' := (run __file__ resolve).
Local Abbreviation script' := (script __file__ resolve).

Lemma declined_run (w w1 : World) (el : Element) (mid : list string)
    (l : string) (rest : list tty_event) :
  on_term (ask __file__) w = (w1, Return el) ->
  stdin (term w1) = map Line mid ++ Line l :: rest ->
  Forall not_an_answer mid ->
  lower (strip l) = "n" ->
  exists out,
    script' w = (mkWorld (mkTty rest out) (files w),
                 Raise (SystemExit (ExitStr Msg.cancelled))) /\
    run' w = mkExit (mkWorld (mkTty rest out) (files w))
                    [Message Msg.cancelled] 1.
Proof.
  intros Hask Hin Hmid Hl.
  destruct (declined_main __file__ resolve w w1 el mid l rest
              Hask Hin Hmid Hl) as [out Hmain].
  exists out. unfold run, script. by rewrite Hmain.
Qed.

(** C6, as the code has it.  When the first two prompts are answered and
    the confirmation prompt reads, after any lines it does not know, a
    line that is [n] after [strip] and [lower], the script ends with
    [SystemExit] and the file store is the one the run began with; the
    lines after the [n] are not read.  The word [no] is a line the prompt
    does not know. *)
Theorem decline_changes_nothing (w w1 : World) (el : Element)
    (mid : list string) (l : string) (rest : list tty_event) :
  on_term (ask __file__) w = (w1, Return el) ->
  stdin (term w1) = map Line mid ++ Line l :: rest ->
  Forall not_an_answer mid ->
  lower (strip l) = "n" ->
  files (world (run' w)) = files w /\
  stdin (term (world (run' w))) = rest /\
  script' w = (world (run' w), Raise (SystemExit (ExitStr Msg.cancelled))).
Proof.
  intros Hask Hin Hmid Hl.
  destruct (declined_run w w1 el mid l rest Hask Hin Hmid Hl)
    as (out & Hscript & Hrun).
  by rewrite Hrun, Hscript.
Qed.

(** C5, as the code has it.  A run in which [main] returns, or is
    interrupted at a prompt, ends with status [0].  A run in which the
    user declines at the confirmation prompt ends with status [1], and
    the message of cancellation is what the interpreter reports on the
    error stream. *)
Theorem exit_status_spec (w : World) :
  (forall w', script' w = (w', Return tt) -> status (run' w) = 0) /\
  (forall (w1 : World) (el : Element) (mid : list string) (l : string)
          (rest : list tty_event),
     on_term (ask __file__) w = (w1, Return el) ->
     stdin (term w1) = map Line mid ++ Line l :: rest ->
     Forall not_an_answer mid ->
     lower (strip l) = "n" ->
     status (run' w) = 1 /\ stderr (run' w) = [Message Msg.cancelled]).
Proof.
  split.
  - intros w' H. unfold run. by rewrite H.
  - intros w1 el mid l rest Hask Hin Hmid Hl.
    destruct (declined_run w w1 el mid l rest Hask Hin Hmid Hl)
      as (out & _ & Hrun).
    by rewrite Hrun.
Qed.

End Outcome.

(** The status after the user declined is [1]; it is [0] after a run that
    was confirmed, on the same store and with the same answers before the
    confirmation. *)
Lemma decline_status_is_not_zero :
  status (run Sample.file Sample.resolve
            (Sample.world ["c"; "Button"; "n"] ∅)) = 1 /\
  status (run Sample.file Sample.resolve
            (Sample.world ["c"; "Button"; "y"] ∅)) = 0 /\
  status (run Sample.file Sample.resolve
            (Sample.world ["c"; "Button"; "n"] ∅)) <> 0.
Proof.
  split; [|split].
  - vm_compute. reflexivity.
  - vm_compute. reflexivity.
  - vm_compute. discriminate.
Qed.

(** The word [no] does not end the run: the prompt asks again, a [y]
    after it confirms, and the files are written. *)
Lemma no_does_not_decline :
  let r := run Sample.file Sample.resolve
             (Sample.world ["c"; "Button"; "no"; "y"] ∅) in
  not_an_answer "no" /\
  status r = 0 /\
  Os.stat (files (world r)) (PurePath.mk "/" (Sample.folder ++ ["Button.tsx"]))
  = Some (Os.File (TSX.contents "Button")) /\
  files (world r) <> ∅.
Proof.
  intros r.
  assert (Os.stat (files (world r))
            (PurePath.mk "/" (Sample.folder ++ ["Button.tsx"]))
          = Some (Os.File (TSX.contents "Button"))) as H
    by (vm_compute; reflexivity).
  split; [|split; [|split]].
  - unfold not_an_answer. vm_compute. repeat split; discriminate.
  - vm_compute. reflexivity.
  - exact H.
  - intros E. rewrite E in H. vm_compute in H. discriminate H.
Qed.

Lemma decline_changes_nothing_witness :
  let fs : FS :=
    <[PurePath.mk "/" (Sample.folder ++ ["index.ts"]) := Os.File "// mine"]>
      ∅ in
  files (world (run Sample.file Sample.resolve
                  (Sample.world ["c"; "Button"; "maybe"; " N "; "y"] fs)))
  = fs.
Proof.
  intros fs.
  refine (proj1 (decline_changes_nothing Sample.file Sample.resolve
                   (Sample.world ["c"; "Button"; "maybe"; " N "; "y"] fs)
                   (mkWorld
                      (mkTty [Line "maybe"; Line " N "; Line "y"]
                         [Msg.base_folder_prompt;
                          Msg.element_prompt components])
                      fs)
                   Sample.Button ["maybe"] " N " [Line "y"] _ _ _ _)).
  - vm_compute. reflexivity.
  - reflexivity.
  - constructor; [|constructor]. unfold not_an_answer. vm_compute.
    repeat split; discriminate.
  - vm_compute. reflexivity.
Defined.

Lemma exit_status_spec_witness :
  status (run Sample.file Sample.resolve
            (Sample.world ["c"; "Button"; "maybe"; " N "; "y"] ∅)) = 1 /\
  status (run Sample.file Sample.resolve
            (Sample.world ["p"; "MyCourses/AuthorCourses"; EmptyString] ∅)) = 0.
Proof.
  split.
  - refine (proj1 (proj2 (exit_status_spec Sample.file Sample.resolve
                     (Sample.world ["c"; "Button"; "maybe"; " N "; "y"] ∅))
                     (mkWorld
                        (mkTty [Line "maybe"; Line " N "; Line "y"]
                           [Msg.base_folder_prompt;
                            Msg.element_prompt components])
                        ∅)
                     Sample.Button ["maybe"] " N " [Line "y"] _ _ _ _)).
    + vm_compute. reflexivity.
    + reflexivity.
    + constructor; [|constructor]. unfold not_an_answer. vm_compute.
      repeat split; discriminate.
    + vm_compute. reflexivity.
  - apply (proj1 (exit_status_spec Sample.file Sample.resolve _)
             (fst (script Sample.file Sample.resolve
                     (Sample.world
                        ["p"; "MyCourses/AuthorCourses"; EmptyString] ∅)))).
    apply returned. vm_compute. reflexivity.
Defined.

(** * Further properties of the script *)

(** ** Where the files go *)

Module TargetFacts.
Import Str StrFacts PurePath PathFacts.

Lemma length_app (s t : string) :
  String.length (s +:+ t) = (String.length s + String.length t)%nat.
Proof.
  induction s as [|c s IH]; [done|]. rewrite app_cons. simpl. by rewrite IH.
Qed.

Lemma no_sep_app (sep : ascii) (s t : string) :
  no_sep sep s -> no_sep sep t -> no_sep sep (s +:+ t).
Proof.
  intros Hs Ht. induction s as [|c s IH]; [done|].
  rewrite app_cons. destruct Hs as [Hc Hs]. split; [done|]. by apply IH.
Qed.

(** Joining one component that is a plain file name. *)
Lemma truediv_component (d : Path) (s : string) :
  no_sep sep s -> (2 <= String.length s)%nat ->
  (d / s)%path = mk (root d) (parts d ++ [s]).
Proof.
  intros Hs Hlen. rewrite truediv_relative by by apply no_sep_startswith.
  rewrite (split_id _ _ Hs). f_equal. f_equal.
  assert (s <> EmptyString /\ s <> ".") as H.
  { split; intros ->; simpl in Hlen; lia. }
  unfold filter. cbn. by destruct (decide (s <> EmptyString /\ s <> ".")).
Qed.

Lemma parent_component (d : Path) (s : string) :
  parent (mk (root d) (parts d ++ [s])) = d.
Proof. unfold parent. cbn. rewrite removelast_last. by destruct d. Qed.

Lemma parents_component (d : Path) (s t : string) :
  parents (mk (root d) (parts d ++ [s]))
  = parents (mk (root d) (parts d ++ [t])).
Proof. unfold parents. cbn. by rewrite !rev_app_distr. Qed.

End TargetFacts.

Section Targets.
Import Str StrFacts PurePath PathFacts TargetFacts.

Variable e : Element.
Hypothesis name_no_slash : no_sep "/" (name e).

Local Abbreviation tsx := (get_absolute_filename (TSXFileCreator e)).
Local Abbreviation css := (get_absolute_filename (CSSFileCreator e)).
Local Abbreviation idx := (get_absolute_filename (IndexFileCreator e)).

Lemma tsx_eq :
  tsx = mk (root (full_path e)) (parts (full_path e) ++ [name e +:+ ".tsx"]).
Proof.
  apply truediv_component.
  - apply no_sep_app; [done|]. cbn. repeat (split; [discriminate|]). exact I.
  - rewrite length_app. simpl. lia.
Qed.

Lemma css_eq :
  css = mk (root (full_path e))
           (parts (full_path e) ++ [name e +:+ ".module.css"]).
Proof.
  apply truediv_component.
  - apply no_sep_app; [done|]. cbn. repeat (split; [discriminate|]). exact I.
  - rewrite length_app. simpl. lia.
Qed.

Lemma idx_eq :
  idx = mk (root (full_path e)) (parts (full_path e) ++ ["index.ts"]).
Proof.
  apply truediv_component.
  - cbn. repeat (split; [discriminate|]). exact I.
  - simpl. lia.
Qed.

Lemma tsx_css : tsx <> css.
Proof.
  rewrite tsx_eq, css_eq. intros [= H]. apply List.app_inv_head in H.
  injection H as H. apply StrFacts.app_inv_head in H. discriminate H.
Qed.

Lemma css_idx : css <> idx.
Proof.
  rewrite css_eq, idx_eq. intros [= H]. apply List.app_inv_head in H.
  injection H as H. apply (f_equal String.length) in H.
  rewrite length_app in H. simpl in H. lia.
Qed.

Lemma tsx_idx : tsx <> idx.
Proof.
  rewrite tsx_eq, idx_eq. intros [= H]. apply List.app_inv_head in H.
  injection H as H. pose proof (f_equal String.length H) as Hlen.
  rewrite length_app in Hlen. revert H Hlen.
  destruct (name e) as [|a [|b [|c [|d [|? ?]]]]];
    rewrite ?app_cons, ?app_nil; simpl String.length; intros H Hlen;
    try lia. discriminate H.
Qed.

(** X2. For a name without a slash, the three files lie directly in the
    directory of the element, under the names [name.tsx],
    [name.module.css] and [index.ts], and they are three different
    files. *)
Theorem targets_in_directory :
  (tsx = mk (root (full_path e)) (parts (full_path e) ++ [name e +:+ ".tsx"])
   /\ parent tsx = full_path e) /\
  (css = mk (root (full_path e))
            (parts (full_path e) ++ [name e +:+ ".module.css"])
   /\ parent css = full_path e) /\
  (idx = mk (root (full_path e)) (parts (full_path e) ++ ["index.ts"])
   /\ parent idx = full_path e) /\
  tsx <> css /\ css <> idx /\ tsx <> idx.
Proof.
  split; [|split; [|split; [|split; [|split]]]].
  - split; [apply tsx_eq|]. rewrite tsx_eq. apply parent_component.
  - split; [apply css_eq|]. rewrite css_eq. apply parent_component.
  - split; [apply idx_eq|]. rewrite idx_eq. apply parent_component.
  - apply tsx_css.
  - apply css_idx.
  - apply tsx_idx.
Qed.

End Targets.

Lemma targets_in_directory_witness :
  get_absolute_filename (TSXFileCreator Sample.Button)
  = PurePath.mk "/" (Sample.folder ++ ["Button.tsx"]) /\
  PurePath.parent (get_absolute_filename (IndexFileCreator Sample.Button))
  = full_path Sample.Button.
Proof.
  assert (Str.no_sep "/" (name Sample.Button)) as H
    by (cbn; repeat (split; [discriminate|]); exact I).
  split.
  - exact (proj1 (proj1 (targets_in_directory Sample.Button H))).
  - exact (proj2 (proj1 (proj2 (proj2 (targets_in_directory Sample.Button
                                        H))))).
Defined.

(** ** Registering the file creators *)

(** X1. [register_file_creators] keeps the element and appends one
    creator per class, in the order given, each made for that element. *)
Theorem register_file_creators_spec (self : ElementFilesCreator)
    (file_creators : list (Element -> FileCreator)) :
  efc_element (register_file_creators self file_creators)
  = efc_element self /\
  _file_creators (register_file_creators self file_creators)
  = _file_creators self
    ++ map (fun fc => fc (efc_element self)) file_creators.
Proof.
  revert self. induction file_creators as [|fc rest IH]; intros self.
  - cbn. by rewrite app_nil_r.
  - cbn [register_file_creators fold_left map].
    fold (register_file_creators
            {| efc_element := efc_element self;
               _file_creators := _file_creators self ++ [fc (efc_element self)]
            |} rest).
    destruct (IH {| efc_element := efc_element self;
                    _file_creators :=
                      _file_creators self ++ [fc (efc_element self)] |})
      as [-> ->].
    cbn. by rewrite <- (assoc_L (++)).
Qed.

(** ** Creating a file once more, and where it cannot be created *)

Module EnsureFacts.
Import PurePath Os PathFacts OsFacts.

(** [mkdir] on a directory that is there returns and changes nothing. *)
Lemma mkdir_rec_there (r : string) (rparts : list string) (fs : FS) :
  is_dir (mk r (rev rparts)) fs = true ->
  mkdir_rec r rparts fs = (fs, Return tt).
Proof.
  intros Hd. pose proof Hd as Hs. apply is_dir_stat in Hs.
  destruct rparts as [|x rest]; cbn [mkdir_rec];
    unfold os_mkdir, exist_ok_handler; by rewrite Hs, Hd.
Qed.

(** [mkdir] on a regular file raises [FileExistsError] and changes
    nothing. *)
Lemma mkdir_rec_on_file (r : string) (rparts : list string) (fs : FS) :
  is_file (mk r (rev rparts)) fs = true ->
  mkdir_rec r rparts fs = (fs, Raise FileExistsError).
Proof.
  unfold is_file. intros Hf.
  destruct (stat fs (mk r (rev rparts))) as [n|] eqn:Hs; [|done].
  assert (is_dir (mk r (rev rparts)) fs = false) as Hd
    by (unfold is_dir; rewrite Hs; by destruct n).
  destruct rparts as [|x rest]; cbn [mkdir_rec];
    unfold os_mkdir, exist_ok_handler; by rewrite Hs, Hd.
Qed.

Lemma ensure_again (p : Path) (fs : FS) :
  is_dir (parent p) fs = true -> is_Some (stat fs p) ->
  (mkdir (parent p) >> touch p) fs = (fs, Return tt).
Proof.
  intros Hd [n Hn]. unfold seq, bind, mkdir.
  rewrite mkdir_rec_there.
  - unfold touch. by rewrite Hn.
  - change (root (parent p)) with (root p). by rewrite parent_eta.
Qed.

Lemma ensure_on_file (p : Path) (fs : FS) :
  is_file (parent p) fs = true ->
  (mkdir (parent p) >> touch p) fs = (fs, Raise FileExistsError).
Proof.
  intros Hf. unfold seq, bind, mkdir.
  rewrite mkdir_rec_on_file; [done|].
  change (root (parent p)) with (root p). by rewrite parent_eta.
Qed.

(** The store after [write_text] returned. *)
Lemma write_text_inv (p : Path) (data : string) (fs fs' : FS) :
  write_text p data fs = (fs', Return tt) ->
  fs' = <[p := File data]> fs /\ parts p <> [].
Proof.
  unfold write_text, create_entry.
  destruct (stat fs p) as [[c| |b]|] eqn:E.
  - intros [= <-]. split; [done|]. intros H.
    by rewrite (stat_root fs p H) in E.
  - done.
  - intros [= <-]. split; [done|]. intros H.
    by rewrite (stat_root fs p H) in E.
  - destruct (stat fs (parent p)) as [[c| |b]|]; [done| |done|done].
    intros [= <-]. split; [done|]. by apply (stat_None_parts fs).
Qed.

Lemma is_dir_insert_file (p q : Path) (data : string) (fs : FS) :
  is_dir q fs = true -> q <> p \/ parts q = [] ->
  is_dir q (<[p := File data]> fs) = true.
Proof.
  rewrite !is_dir_stat. intros Hq [Hne|Hroot].
  - by rewrite stat_insert_ne.
  - by apply stat_root.
Qed.

Lemma parent_ne (p : Path) : parts p <> [] -> parent p <> p.
Proof.
  intros Hne Heq. apply (f_equal parts) in Heq. unfold parent in Heq.
  cbn in Heq. destruct (exists_last Hne) as (l & x & E). rewrite E in Heq.
  rewrite removelast_last in Heq. apply (f_equal length) in Heq.
  rewrite length_app in Heq. simpl in Heq. lia.
Qed.

End EnsureFacts.

Lemma create_blocked (self : FileCreator) (fs : FS) :
  Os.is_file (PurePath.parent (get_absolute_filename self)) fs = true ->
  create self fs = (fs, Raise FileExistsError).
Proof.
  intros H.
  assert (_create_empty_file self fs = (fs, Raise FileExistsError)) as Hrun
    by exact (EnsureFacts.ensure_on_file _ _ H).
  unfold create, seq, bind. by rewrite Hrun.
Qed.

(** X3. [_create_empty_file] is idempotent: after it returned, running it
    again returns and leaves the store as it is. *)
Theorem create_empty_file_idempotent (self : FileCreator) (fs fs1 : FS) :
  _create_empty_file self fs = (fs1, Return tt) ->
  _create_empty_file self fs1 = (fs1, Return tt).
Proof.
  intros H. destruct (OsFacts.ensure_exists _ _ _ H) as [Hp Hd].
  by apply EnsureFacts.ensure_again.
Qed.

Lemma create_empty_file_idempotent_witness :
  let fs1 := fst (_create_empty_file (CSSFileCreator Sample.Button) ∅) in
  _create_empty_file (CSSFileCreator Sample.Button) fs1 = (fs1, Return tt).
Proof.
  intros fs1.
  apply (create_empty_file_idempotent (CSSFileCreator Sample.Button) ∅ fs1).
  apply returned. vm_compute. reflexivity.
Defined.

(** X4. When the place of the directory that is to hold the file is taken
    by a regular file, [_create_empty_file] raises [FileExistsError], and
    so does [create]; the store is as it was. *)
Theorem create_under_a_file (self : FileCreator) (fs : FS) :
  Os.is_file (PurePath.parent (get_absolute_filename self)) fs = true ->
  _create_empty_file self fs = (fs, Raise FileExistsError) /\
  create self fs = (fs, Raise FileExistsError).
Proof.
  intros H.
  assert (_create_empty_file self fs = (fs, Raise FileExistsError)) as Hrun
    by exact (EnsureFacts.ensure_on_file _ _ H).
  split; [exact Hrun|]. unfold create, seq, bind. by rewrite Hrun.
Qed.

Lemma create_under_a_file_witness :
  let fs : FS := <[PurePath.mk "/" Sample.folder := Os.File "taken"]> ∅ in
  create (TSXFileCreator Sample.Button) fs = (fs, Raise FileExistsError).
Proof.
  intros fs.
  refine (proj2 (create_under_a_file (TSXFileCreator Sample.Button) fs _)).
  vm_compute. reflexivity.
Defined.

Module IndexFacts.
Import Str StrFacts.

(** The line written to the index file is not blank, whatever the name. *)
Lemma contents_not_blank (N : string) :
  strip (Index.contents N) <> EmptyString.
Proof.
  unfold strip.
  assert (lstrip (Index.contents N) = Index.contents N) as -> by reflexivity.
  unfold Index.contents. rewrite <- !app_assoc.
  rewrite (rstrip_barrier _ ";" EmptyString) by (vm_compute; reflexivity).
  intros H. apply (f_equal String.length) in H.
  rewrite TargetFacts.length_app in H. simpl in H. lia.
Qed.

End IndexFacts.

(** X5. [create] of the script-file creator is idempotent: after it
    returned, running it again returns and leaves the store as it is. *)
Theorem TSXFileCreator_create_idempotent (e : Element) (fs fs1 : FS) :
  create (TSXFileCreator e) fs = (fs1, Return tt) ->
  create (TSXFileCreator e) fs1 = (fs1, Return tt).
Proof.
  intros H. unfold create, seq, bind in H.
  destruct (_create_empty_file (TSXFileCreator e) fs) as [fs0 [[]|err]]
    eqn:Hrun; [|done].
  cbn [_write_file_contents TSXFileCreator] in H.
  set (p := (full_path e / (name e +:+ ".tsx"))%path) in *.
  destruct (OsFacts.ensure_exists p _ _ Hrun) as [Hp Hd].
  apply EnsureFacts.write_text_inv in H as [-> Hne].
  unfold create, seq, bind.
  change (_create_empty_file (TSXFileCreator e))
    with (Os.mkdir (PurePath.parent p) >> Os.touch p).
  rewrite EnsureFacts.ensure_again.
  - cbn [_write_file_contents TSXFileCreator]. fold p. unfold Os.write_text.
    rewrite OsFacts.stat_insert_eq by done. by rewrite insert_insert_eq.
  - apply EnsureFacts.is_dir_insert_file; [done|]. left.
    by apply EnsureFacts.parent_ne.
  - by rewrite OsFacts.stat_insert_eq.
Qed.

Lemma TSXFileCreator_create_idempotent_witness :
  let fs1 := fst (create (TSXFileCreator Sample.Button) ∅) in
  create (TSXFileCreator Sample.Button) fs1 = (fs1, Return tt).
Proof.
  intros fs1.
  apply (TSXFileCreator_create_idempotent Sample.Button ∅ fs1).
  apply returned. vm_compute. reflexivity.
Defined.

(** X6. Once [create] of the index-file creator has returned, the index
    file is settled: a later [create] of an index-file creator for the same
    directory, for the same name or for another, returns and leaves the
    store as it is.  Only the first element of a directory is exported. *)
Theorem IndexFileCreator_first_wins (e e' : Element) (fs fs1 : FS) :
  full_path e' = full_path e ->
  create (IndexFileCreator e) fs = (fs1, Return tt) ->
  create (IndexFileCreator e') fs1 = (fs1, Return tt).
Proof.
  intros Hpath H. unfold create, seq, bind in H.
  destruct (_create_empty_file (IndexFileCreator e) fs) as [fs0 [[]|err]]
    eqn:Hrun; [|done].
  cbn [_write_file_contents IndexFileCreator] in H.
  set (p := (full_path e / "index.ts")%path) in *.
  destruct (OsFacts.ensure_exists p _ _ Hrun) as [Hp Hd].
  unfold create, seq, bind.
  change (_create_empty_file (IndexFileCreator e'))
    with (Os.mkdir (PurePath.parent (full_path e' / "index.ts")%path)
          >> Os.touch (full_path e' / "index.ts")%path).
  cbn [_write_file_contents IndexFileCreator]. rewrite Hpath. fold p.
  unfold bind, Os.read_text in H.
  destruct (Os.stat fs0 p) as [[c| |b]|] eqn:Hc; [| | |by destruct Hp].
  - destruct (decide (Str.strip (Os.universal_newlines c) <> EmptyString))
      as [Hnb|Hb].
    + injection H as <-. rewrite EnsureFacts.ensure_again by done.
      unfold bind, Os.read_text. rewrite Hc.
      by destruct (decide (Str.strip (Os.universal_newlines c)
                           <> EmptyString)).
    + apply EnsureFacts.write_text_inv in H as [-> Hne].
      rewrite EnsureFacts.ensure_again.
      * unfold bind, Os.read_text. rewrite OsFacts.stat_insert_eq by done.
        destruct (decide (_ <> EmptyString)) as [_|Hx]; [done|].
        exfalso. apply Hx. rewrite OsFacts.strip_universal.
        apply IndexFacts.contents_not_blank.
      * apply EnsureFacts.is_dir_insert_file; [done|]. left.
        by apply EnsureFacts.parent_ne.
      * by rewrite OsFacts.stat_insert_eq.
  - done.
  - done.
Qed.

Lemma IndexFileCreator_first_wins_witness :
  let Input : Element :=
    {| full_path := full_path Sample.Button; name := "Input" |} in
  let fs1 := fst (create (IndexFileCreator Sample.Button) ∅) in
  create (IndexFileCreator Input) fs1 = (fs1, Return tt).
Proof.
  intros Input fs1.
  apply (IndexFileCreator_first_wins Sample.Button Input ∅ fs1).
  - reflexivity.
  - apply returned. vm_compute. reflexivity.
Defined.

(** ** A directory in the place of a file *)

(** X7. When the place of the file is taken by a directory, [create] of
    the script-file creator and of the index-file creator raises
    [IsADirectoryError], the first on writing and the second on reading,
    while [create] of the style-file creator returns, having written
    nothing; in every case what was in the store is still there. *)
Theorem create_on_a_directory (e : Element) (fs : FS) :
  (forall p, p = get_absolute_filename (TSXFileCreator e) ->
     Os.can_hold fs p = true -> Os.is_dir p fs = true ->
     exists fs1,
       create (TSXFileCreator e) fs = (fs1, Raise IsADirectoryError) /\
       Os.only_adds p fs fs1) /\
  (forall p, p = get_absolute_filename (IndexFileCreator e) ->
     Os.can_hold fs p = true -> Os.is_dir p fs = true ->
     exists fs1,
       create (IndexFileCreator e) fs = (fs1, Raise IsADirectoryError) /\
       Os.only_adds p fs fs1) /\
  (forall p, p = get_absolute_filename (CSSFileCreator e) ->
     Os.can_hold fs p = true -> Os.is_dir p fs = true ->
     exists fs1,
       create (CSSFileCreator e) fs = (fs1, Return tt) /\
       Os.is_dir p fs1 = true /\
       Os.only_adds p fs fs1).
Proof.
  split; [|split]; intros p -> Hhold Hd;
    destruct (OsFacts.ensure_ok _ fs Hhold) as (fs1 & Hrun & Hstat & _ & Hadds);
    apply OsFacts.is_dir_stat in Hd; rewrite Hd in Hstat; cbn in Hstat;
    exists fs1.
  - split; [|done]. unfold create, seq, bind.
    change (_create_empty_file (TSXFileCreator e) fs)
      with ((Os.mkdir
               (PurePath.parent (get_absolute_filename (TSXFileCreator e)))
             >> Os.touch (get_absolute_filename (TSXFileCreator e))) fs).
    rewrite Hrun. cbn [_write_file_contents TSXFileCreator] in *.
    unfold Os.write_text. by rewrite Hstat.
  - split; [|done]. unfold create, seq, bind.
    change (_create_empty_file (IndexFileCreator e) fs)
      with ((Os.mkdir
               (PurePath.parent (get_absolute_filename (IndexFileCreator e)))
             >> Os.touch (get_absolute_filename (IndexFileCreator e))) fs).
    rewrite Hrun. cbn [_write_file_contents IndexFileCreator] in *.
    unfold bind, Os.read_text. by rewrite Hstat.
  - split; [|split; [by apply OsFacts.is_dir_stat|done]].
    unfold create, seq, bind.
    change (_create_empty_file (CSSFileCreator e) fs)
      with ((Os.mkdir
               (PurePath.parent (get_absolute_filename (CSSFileCreator e)))
             >> Os.touch (get_absolute_filename (CSSFileCreator e))) fs).
    by rewrite Hrun.
Qed.

Lemma create_on_a_directory_witness :
  let p := PurePath.mk "/" (Sample.folder ++ ["Button.tsx"]) in
  let fs : FS := <[p := Os.Dir]> ∅ in
  snd (create (TSXFileCreator Sample.Button) fs) = Raise IsADirectoryError.
Proof.
  intros p fs.
  assert (Os.can_hold fs p = true) as Hhold by (vm_compute; reflexivity).
  assert (Os.is_dir p fs = true) as Hd by (vm_compute; reflexivity).
  destruct (proj1 (create_on_a_directory Sample.Button fs) p eq_refl
              Hhold Hd) as (fs1 & Hrun & _).
  by rewrite Hrun.
Defined.

(** ** The three files of an element *)

Module ComposeFacts.
Import PurePath Os PathFacts OsFacts.

Lemma ensure_where (p : Path) (fs : FS) :
  can_hold fs p = true ->
  exists fs1,
    (mkdir (parent p) >> touch p) fs = (fs1, Return tt) /\
    stat fs1 p = Some (default (File EmptyString) (stat fs p)) /\
    leaves_rest p fs fs1.
Proof.
  intros Hhold.
  destruct (ensure_ok p fs Hhold) as (fs1 & Hrun & Hstat & _ & _).
  exists fs1. split; [done|]. split; [done|].
  pose proof (can_hold_chain _ _ Hhold) as Hchain.
  destruct (mkdir_rec_ok _ _ _ Hchain) as (fs0 & Hrun0 & Hdir & Hgrow).
  assert (Hdepth : forall q,
            In q (chain (root p) (rev (parts (parent p)))) ->
            stat fs q = None ->
            (length (parts q) < length (parts p))%nat).
  { intros q Hin Hq. apply chain_depth in Hin.
    rewrite length_rev in Hin. unfold parent in Hin. cbn [parts] in Hin.
    pose proof (stat_None_parts _ _ Hq) as Hne.
    destruct (parts p) as [|x l] eqn:E using rev_ind.
    - cbn in Hin. destruct (parts q); [done|]. cbn in Hin. lia.
    - rewrite removelast_last in Hin. rewrite length_app. cbn. lia. }
  revert Hrun. unfold seq, bind, mkdir.
  change (root (parent p)) with (root p). rewrite Hrun0.
  unfold touch, create_entry.
  destruct (stat fs0 p) as [n|] eqn:E0.
  - intros [= <-]. intros q Hq.
    destruct (Hgrow q) as [H|(Hin & H & H')]; [by left|].
    right. split; [by apply Hdepth|done].
  - destruct (stat fs0 (parent p)) as [[c| |b]|]; [done| |done|done].
    intros [= <-]. intros q Hq. rewrite stat_insert_ne by done.
    destruct (Hgrow q) as [H|(Hin & H & H')]; [by left|].
    right. split; [by apply Hdepth|done].
Qed.

Lemma leaves_rest_insert (p : Path) (n : node) (fs fs0 : FS) :
  leaves_rest p fs fs0 -> leaves_rest p fs (<[p := n]> fs0).
Proof. intros H q Hq. rewrite stat_insert_ne by done. by apply H. Qed.

(** A creator for [p] leaves what a path [p'] as deep as [p] needs. *)
Lemma leaves_rest_can_hold (p p' : Path) (fs fs' : FS) :
  leaves_rest p fs fs' -> length (parts p) = length (parts p') ->
  can_hold fs p' = true -> can_hold fs' p' = true.
Proof.
  intros Hrest Hlen. unfold can_hold. rewrite !forallb_forall.
  intros Hhold a Ha. specialize (Hhold a Ha).
  pose proof (parents_depth _ _ Ha) as Hdepth.
  apply negb_true_iff. apply negb_true_iff in Hhold.
  unfold is_file in *.
  destruct (Hrest a) as [H|(_ & _ & H)].
  - intros ->. lia.
  - by rewrite H.
  - by rewrite H.
Qed.

Lemma leaves_rest_stat (p p' : Path) (fs fs' : FS) :
  leaves_rest p fs fs' -> length (parts p) = length (parts p') ->
  p' <> p -> stat fs' p' = stat fs p'.
Proof.
  intros Hrest Hlen Hne. destruct (Hrest p' Hne) as [H|(H & _)]; [done|lia].
Qed.

Lemma leaves_rest_keeps (p q : Path) (n : node) (fs fs' : FS) :
  leaves_rest p fs fs' -> q <> p -> stat fs q = Some n ->
  stat fs' q = Some n.
Proof.
  intros Hrest Hne Hq. destruct (Hrest q Hne) as [H|(_ & H & _)]; congruence.
Qed.

Lemma is_dir_false (p : Path) (fs fs' : FS) :
  stat fs' p = stat fs p -> is_dir p fs = false -> is_dir p fs' = false.
Proof. unfold is_dir. by intros ->. Qed.

End ComposeFacts.

Section Effects.
Import PurePath Os OsFacts ComposeFacts.

Variable e : Element.

Lemma tsx_effect (fs : FS) :
  let p := get_absolute_filename (TSXFileCreator e) in
  can_hold fs p = true -> is_dir p fs = false ->
  exists fs1,
    create (TSXFileCreator e) fs = (fs1, Return tt) /\
    stat fs1 p = Some (File (TSX.contents (name e))) /\
    leaves_rest p fs fs1.
Proof.
  intros p Hhold Hnd.
  destruct (ensure_where p fs Hhold) as (fs0 & Hrun & Hstat & Hrest).
  destruct (not_dir_cases _ _ Hnd) as [Hcases Hne].
  unfold create, seq, bind.
  change (_create_empty_file (TSXFileCreator e) fs)
    with ((mkdir (parent p) >> touch p) fs).
  rewrite Hrun. cbn [_write_file_contents TSXFileCreator].
  change (full_path e / (name e +:+ ".tsx"))%path with p.
  unfold write_text. rewrite Hstat.
  destruct (stat fs p) as [[c| |b]|]; [|done| |];
    (eexists; split; [done|];
     split; [by apply stat_insert_eq|]; by apply leaves_rest_insert).
Qed.

Lemma css_effect (fs : FS) :
  let p := get_absolute_filename (CSSFileCreator e) in
  can_hold fs p = true ->
  exists fs1,
    create (CSSFileCreator e) fs = (fs1, Return tt) /\
    stat fs1 p = Some (default (File EmptyString) (stat fs p)) /\
    leaves_rest p fs fs1.
Proof.
  intros p Hhold.
  destruct (ensure_where p fs Hhold) as (fs0 & Hrun & Hstat & Hrest).
  exists fs0. split; [|done]. unfold create, seq, bind.
  change (_create_empty_file (CSSFileCreator e) fs)
    with ((mkdir (parent p) >> touch p) fs).
  by rewrite Hrun.
Qed.

Lemma index_effect (fs : FS) :
  let p := get_absolute_filename (IndexFileCreator e) in
  can_hold fs p = true -> is_dir p fs = false ->
  (forall b, stat fs p <> Some (Undecodable b)) ->
  exists fs1,
    create (IndexFileCreator e) fs = (fs1, Return tt) /\
    stat fs1 p = Some (File (index_after (name e) (stat fs p))) /\
    leaves_rest p fs fs1.
Proof.
  intros p Hhold Hnd Htext.
  destruct (ensure_where p fs Hhold) as (fs0 & Hrun & Hstat & Hrest).
  destruct (not_dir_cases _ _ Hnd) as [Hcases Hne].
  unfold create, seq, bind.
  change (_create_empty_file (IndexFileCreator e) fs)
    with ((mkdir (parent p) >> touch p) fs).
  rewrite Hrun. cbn [_write_file_contents IndexFileCreator].
  change (full_path e / "index.ts")%path with p.
  unfold bind, read_text, index_after.
  destruct (stat fs p) as [[c| |b]|] eqn:E.
  - change (stat fs0 p = Some (File c)) in Hstat. rewrite Hstat.
    destruct (decide (Str.strip c <> EmptyString)) as [Hc|Hc];
      destruct (decide (Str.strip (universal_newlines c) <> EmptyString))
        as [Hu|Hu].
    + by exists fs0.
    + apply dec_stable in Hu. apply (proj1 (strip_universal c)) in Hu.
      by destruct Hc.
    + apply dec_stable in Hc. apply (proj2 (strip_universal c)) in Hc.
      by destruct Hu.
    + unfold write_text. rewrite Hstat. eexists. split; [done|].
      split; [by apply stat_insert_eq|]. by apply leaves_rest_insert.
  - done.
  - by destruct (Htext b).
  - change (stat fs0 p = Some (File EmptyString)) in Hstat. rewrite Hstat.
    change (Str.strip (universal_newlines EmptyString)) with EmptyString.
    destruct (decide (EmptyString <> EmptyString)) as [H|_]; [done|].
    unfold write_text. rewrite Hstat. eexists. split; [done|].
    split; [by apply stat_insert_eq|]. by apply leaves_rest_insert.
Qed.

End Effects.

Section Three.
Import Str PurePath Os OsFacts ComposeFacts TargetFacts.

Variable e : Element.
Hypothesis name_no_slash : no_sep "/" (name e).

Local Abbreviation tsx := (get_absolute_filename (TSXFileCreator e)).
Local Abbreviation css := (get_absolute_filename (CSSFileCreator e)).
Local Abbreviation idx := (get_absolute_filename (IndexFileCreator e)).

Lemma depth_tsx_css : length (parts tsx) = length (parts css).
Proof.
  rewrite (tsx_eq e name_no_slash), (css_eq e name_no_slash). cbn.
  by rewrite !List.length_app.
Qed.

Lemma depth_tsx_idx : length (parts tsx) = length (parts idx).
Proof.
  rewrite (tsx_eq e name_no_slash), (idx_eq e). cbn.
  by rewrite !List.length_app.
Qed.

Lemma can_hold_css (fs : FS) : can_hold fs css = can_hold fs tsx.
Proof.
  unfold can_hold.
  rewrite (tsx_eq e name_no_slash), (css_eq e name_no_slash).
  by rewrite (parents_component _ _ (name e +:+ ".tsx")).
Qed.

Lemma can_hold_idx (fs : FS) : can_hold fs idx = can_hold fs tsx.
Proof.
  unfold can_hold.
  rewrite (tsx_eq e name_no_slash), (idx_eq e).
  by rewrite (parents_component _ _ (name e +:+ ".tsx")).
Qed.

(** The script file and the style file, one after the other. *)
Lemma first_two_files (fs : FS) :
  can_hold fs tsx = true -> is_dir tsx fs = false ->
  exists fs1 fs2,
    create (TSXFileCreator e) fs = (fs1, Return tt) /\
    create (CSSFileCreator e) fs1 = (fs2, Return tt) /\
    stat fs2 tsx = Some (File (TSX.contents (name e))) /\
    stat fs2 css = Some (default (File EmptyString) (stat fs css)) /\
    stat fs2 idx = stat fs idx /\
    can_hold fs2 idx = true /\
    (forall q n, stat fs q = Some n -> q <> tsx -> stat fs2 q = Some n).
Proof.
  intros Hhold Hnd_tsx.
  pose proof (tsx_css e name_no_slash) as Htc.
  pose proof (css_idx e name_no_slash) as Hci.
  pose proof (tsx_idx e name_no_slash) as Hti.
  pose proof depth_tsx_css as Dtc. pose proof depth_tsx_idx as Dti.
  destruct (tsx_effect e fs Hhold Hnd_tsx) as (fs1 & R1 & S1 & L1).
  assert (can_hold fs1 css = true) as Hhold1.
  { apply (leaves_rest_can_hold tsx css fs fs1 L1 Dtc).
    by rewrite can_hold_css. }
  destruct (css_effect e fs1 Hhold1) as (fs2 & R2 & S2 & L2).
  assert (stat fs1 css = stat fs css) as E1c
    by (apply (leaves_rest_stat tsx); [done|done|by apply not_eq_sym]).
  assert (stat fs1 idx = stat fs idx) as E1i
    by (apply (leaves_rest_stat tsx); [done|done|by apply not_eq_sym]).
  exists fs1, fs2. split; [done|]. split; [done|].
  split; [|split; [|split; [|split]]].
  - rewrite (leaves_rest_stat css tsx fs1 fs2 L2); [done|lia|done].
  - congruence.
  - rewrite (leaves_rest_stat css idx fs1 fs2 L2); [done|lia|].
    by apply not_eq_sym.
  - apply (leaves_rest_can_hold css idx fs1 fs2 L2); [lia|].
    apply (leaves_rest_can_hold tsx idx fs fs1 L1 Dti).
    by rewrite can_hold_idx.
  - intros q n Hq Hqt. destruct (decide (q = css)) as [->|Hqc].
    + by rewrite S2, E1c, Hq.
    + apply (leaves_rest_keeps css q n fs1 fs2 L2 Hqc).
      by apply (leaves_rest_keeps tsx q n fs fs1 L1 Hqt).
Qed.

Lemma three_creators :
  ElementFilesCreator_create (creator_of e)
  = create (TSXFileCreator e) >>
    (create (CSSFileCreator e) >> (create (IndexFileCreator e) >> ret tt)).
Proof. reflexivity. Qed.

(** X8. For an element whose name has no slash and whose directory is
    spelled without [..], in a store that can hold its files, has no
    directory in the place of the script file or of the index file, and
    whose index file, if there is one, holds text,
    [ElementFilesCreator.create] with the three creators of [main]
    returns.  Afterwards the script file holds the template, the style
    file is what it was or an empty file, and the index file holds what
    it held when that was not blank and the export of the element
    otherwise. *)
Theorem create_three_files (fs : FS) :
  Forall (fun x => x <> "..") (parts (full_path e)) ->
  can_hold fs tsx = true ->
  is_dir tsx fs = false -> is_dir idx fs = false ->
  (forall b, stat fs idx <> Some (Undecodable b)) ->
  exists fs',
    ElementFilesCreator_create (creator_of e) fs = (fs', Return tt) /\
    stat fs' tsx = Some (File (TSX.contents (name e))) /\
    stat fs' css = Some (default (File EmptyString) (stat fs css)) /\
    stat fs' idx = Some (File (index_after (name e) (stat fs idx))).
Proof.
  intros _ Hhold Hnd_tsx Hnd_idx Htext.
  destruct (first_two_files fs Hhold Hnd_tsx)
    as (fs1 & fs2 & R1 & R2 & T & C & I & Hhold2 & Kept).
  assert (is_dir idx fs2 = false) as Hnd2
    by (by apply (is_dir_false idx fs)).
  destruct (index_effect e fs2 Hhold2 Hnd2) as (fs3 & R3 & S3 & L3).
  { by rewrite I. }
  pose proof (css_idx e name_no_slash) as Hci.
  pose proof (tsx_idx e name_no_slash) as Hti.
  pose proof depth_tsx_css as Dtc. pose proof depth_tsx_idx as Dti.
  exists fs3. split; [|split; [|split]].
  - rewrite three_creators. unfold seq, bind. by rewrite R1, R2, R3.
  - rewrite (leaves_rest_stat idx tsx fs2 fs3 L3); [done|lia|done].
  - rewrite (leaves_rest_stat idx css fs2 fs3 L3); [done|lia|done].
  - by rewrite S3, I.
Qed.

End Three.

Lemma create_three_files_witness :
  let fs : FS :=
    <[PurePath.mk "/" (Sample.folder ++ ["index.ts"]) := Os.File "// mine"]>
      ∅ in
  exists fs',
    ElementFilesCreator_create (creator_of Sample.Button) fs
    = (fs', Return tt) /\
    Os.stat fs' (PurePath.mk "/" (Sample.folder ++ ["Button.tsx"]))
    = Some (Os.File (TSX.contents "Button")) /\
    Os.stat fs' (PurePath.mk "/" (Sample.folder ++ ["Button.module.css"]))
    = Some (Os.File EmptyString) /\
    Os.stat fs' (PurePath.mk "/" (Sample.folder ++ ["index.ts"]))
    = Some (Os.File "// mine").
Proof.
  intros fs.
  assert (Str.no_sep "/" (name Sample.Button)) as Hname
    by (cbn; repeat (split; [discriminate|]); exact I).
  assert (Os.can_hold fs (get_absolute_filename (TSXFileCreator Sample.Button))
          = true) as Hhold by (vm_compute; reflexivity).
  assert (Os.is_dir (get_absolute_filename (TSXFileCreator Sample.Button)) fs
          = false) as Ht by (vm_compute; reflexivity).
  assert (Os.is_dir (get_absolute_filename (IndexFileCreator Sample.Button))
            fs = false) as Hi by (vm_compute; reflexivity).
  assert (forall b,
            Os.stat fs (get_absolute_filename (IndexFileCreator Sample.Button))
            <> Some (Os.Undecodable b)) as Hx
    by (intros b H; vm_compute in H; discriminate H).
  assert (Forall (fun x => x <> "..")
            (PurePath.parts (full_path Sample.Button)))
    as Hdots by (repeat constructor; discriminate).
  destruct (create_three_files Sample.Button Hname fs Hdots Hhold Ht Hi Hx)
    as (fs' & Hrun & Htsx & Hcss & Hidx).
  exists fs'. split; [exact Hrun|]. split; [exact Htsx|]. split.
  - refine (eq_trans Hcss _). vm_compute. reflexivity.
  - refine (eq_trans Hidx _). vm_compute. reflexivity.
Defined.

(** ** Asking for the element *)

Section Asking.
Import Str.

Lemma ask_base_folder_retries (pre : list string) (evs : list tty_event)
    (out : list string) :
  Forall (fun l => category_of l = None) pre ->
  _ask_base_folder (mkTty (map Line pre ++ evs) out)
  = _ask_base_folder (mkTty evs (category_retries (length pre) out)).
Proof.
  intros H. revert out. induction H as [|l pre Hl _ IH]; intros out; [done|].
  unfold _ask_base_folder in *.
  cbn [map app stdin stdout _ask_base_folder_loop] in *.
  unfold category_of in Hl.
  destruct (decide (lower (strip l) = "c")); [done|].
  destruct (decide (lower (strip l) = "p")); [done|].
  rewrite IH. cbn [length category_retries].
  by rewrite <- ?(assoc_L (++)).
Qed.

Lemma ask_base_folder_answer (l : string) (b : BaseFolder)
    (rest : list tty_event) (out : list string) :
  category_of l = Some b ->
  _ask_base_folder (mkTty (Line l :: rest) out)
  = (mkTty rest (out ++ [Msg.base_folder_prompt]), Return b).
Proof.
  unfold category_of, _ask_base_folder.
  cbn [stdin stdout _ask_base_folder_loop].
  destruct (decide (lower (strip l) = "c")); [by intros [= <-]|].
  destruct (decide (lower (strip l) = "p")); [by intros [= <-]|done].
Qed.

(** X12. [ask] reads lines at the category prompt until one stands for a
    base folder, then one line at the element prompt, and returns what the
    parser makes of that line, stripped, for that base folder; the lines
    after it are not read, and each line the category prompt did not know
    has cost one message and one more prompt. *)
Theorem ask_spec (file : string) (pre : list string) (cat el : string)
    (b : BaseFolder) (rest : list tty_event) (out : list string) :
  Forall (fun l => category_of l = None) pre ->
  category_of cat = Some b ->
  ask file (mkTty (map Line pre ++ Line cat :: Line el :: rest) out)
  = (mkTty rest
       (category_retries (length pre) out
        ++ [Msg.base_folder_prompt] ++ [Msg.element_prompt b]),
     _parse_as_element file (strip el) b).
Proof.
  intros Hpre Hcat. unfold ask, bind at 1.
  rewrite (ask_base_folder_retries _ _ _ Hpre).
  rewrite (ask_base_folder_answer _ _ _ _ Hcat).
  cbv [bind _ask_element input ret of_result stdin stdout].
  by rewrite <- ?(assoc_L (++)).
Qed.

Lemma ask_spec_witness :
  ask Sample.file
    (mkTty [Line "x"; Line " P";
            Line (Sample.ideographic_space +:+ "MyCourses/AuthorCourses"
                  +:+ Sample.nbsp);
            Line "y"]
       [])
  = (mkTty [Line "y"]
       [Msg.base_folder_prompt; Msg.again; Msg.base_folder_prompt;
        Msg.element_prompt pages],
     Return {| full_path :=
                 PurePath.mk "/" ["app"; "src"; "pages"; "MyCourses"];
               name := "AuthorCourses" |}).
Proof.
  refine (ask_spec Sample.file ["x"] " P"
            (Sample.ideographic_space +:+ "MyCourses/AuthorCourses"
             +:+ Sample.nbsp)
            pages [Line "y"] [] _ _).
  - constructor; [|constructor]. vm_compute. reflexivity.
  - vm_compute. reflexivity.
Defined.

(** X13. Neither prompt gives up or returns on lines it does not know:
    when the input ends after such lines only, the category prompt and the
    confirmation prompt have printed one message for each line, have
    asked once more, and raise [EOFError]. *)
Theorem prompts_at_end_of_input (lines filenames : list string)
    (out : list string) :
  (Forall (fun l => category_of l = None) lines ->
   _ask_base_folder (mkTty (map Line lines) out)
   = (mkTty [] (category_retries (length lines) out
                ++ [Msg.base_folder_prompt]),
      Raise EOFError)) /\
  (Forall not_an_answer lines ->
   ask_ok filenames (mkTty (map Line lines) out)
   = (mkTty []
        (after_retries (join (nl +:+ tab) filenames) (length lines) out
         ++ [Msg.file_list (join (nl +:+ tab) filenames)]
         ++ [Msg.ok_prompt]),
      Raise EOFError)).
Proof.
  split; intros H.
  - rewrite <- (app_nil_r (map Line lines)).
    by rewrite (ask_base_folder_retries _ _ _ H).
  - rewrite <- (app_nil_r (map Line lines)).
    by rewrite (ask_ok_retries _ _ _ _ H).
Qed.

Lemma prompts_at_end_of_input_witness :
  snd (_ask_base_folder (mkTty [Line "components"; Line "1"] []))
  = Raise EOFError /\
  snd (ask_ok ["a.tsx"] (mkTty [Line "yes"; Line "no"] [])) = Raise EOFError.
Proof.
  split.
  - assert (Forall (fun l => category_of l = None) ["components"; "1"]) as H
      by (repeat constructor).
    pose proof (proj1 (prompts_at_end_of_input ["components"; "1"] [] []) H)
      as E.
    cbn [map] in E. by rewrite E.
  - assert (Forall not_an_answer ["yes"; "no"]) as H
      by (repeat constructor; discriminate).
    pose proof (proj2 (prompts_at_end_of_input ["yes"; "no"] ["a.tsx"] []) H)
      as E.
    cbn [map] in E. by rewrite E.
Defined.

End Asking.

(** ** Runs of the program *)

Section Runs.
Import Str.

Variable __file__ : string.
Variable resolve : FS -> Path -> Path.

Local Abbreviation main' := (main __file__ resolve).
Local Abbreviation run' := (run __file__ resolve).
Local Abbreviation names := (shown_names __file__ resolve).


Lemma world_of_run (w : World) : world (run' w) = fst (main' w).
Proof.
  unfold run, script.
  by destruct (main' w) as [w' [[]|[| | |[|msg]| | | | |]]].
Qed.



(** X10. The file store changes only after a confirmation: when the
    store at the end of a run differs from the store at its beginning,
    the first two prompts were answered and the confirmation prompt
    returned. *)
Theorem changed_only_if_confirmed (w : World) :
  files (world (run' w)) <> files w ->
  exists (w1 : World) (el : Element) (w2 : World),
    on_term (ask __file__) w = (w1, Return el) /\
    on_term (ask_ok (names el (files w1))) w1 = (w2, Return tt).
Proof.
  rewrite world_of_run, main_unfold. intros Hchanged.
  destruct (on_term (ask __file__) w) as [w1 [el|e]] eqn:Hask.
  - destruct (on_term (ask_ok (names el (files w1))) w1) as [w2 [[]|e]]
      eqn:Hok.
    + by exists w1, el, w2.
    + exfalso. apply Hchanged. cbn [fst].
      rewrite (on_term_files _ _ _ _ Hok). apply (on_term_files _ _ _ _ Hask).
  - exfalso. apply Hchanged. cbn [fst]. apply (on_term_files _ _ _ _ Hask).
Qed.


End Runs.

Lemma raised {S A : Type} (r : S * result A) (e : exn) :
  snd r = Raise e -> r = (fst r, Raise e).
Proof. destruct r as [s [a|e']]; [discriminate|]. by intros [= ->]. Qed.


Lemma changed_only_if_confirmed_witness :
  let w := Sample.world ["c"; "Button"; "y"] ∅ in
  exists (w1 : World) (el : Element) (w2 : World),
    on_term (ask Sample.file) w = (w1, Return el) /\
    on_term (ask_ok (shown_names Sample.file Sample.resolve el (files w1))) w1
    = (w2, Return tt).
Proof.
  intros w.
  apply (changed_only_if_confirmed Sample.file Sample.resolve w).
  intros Heq.
  apply (f_equal
           (fun m => Os.stat m
                       (PurePath.mk "/"
                          (Sample.folder ++ ["Button.module.css"]))))
    in Heq.
  vm_compute in Heq. discriminate Heq.
Defined.


(** ** The names shown, and the input read back *)

Module ShownFacts.
Import Str StrFacts.

Lemma skip_continuation_id (s : string) :
  starts_char s = true -> skip_continuation s = s.
Proof.
  destruct s as [|c s]; [done|]. cbn. by destruct (is_continuation c).
Qed.

Lemma drop_skip_app (pre rest : string) :
  starts_char rest = true ->
  drop (len pre) (skip_continuation (pre +:+ rest)) = rest.
Proof.
  intros Hrest. induction pre as [|c pre IH].
  - rewrite app_nil. by apply skip_continuation_id.
  - rewrite app_cons. cbn [len skip_continuation drop].
    destruct (is_continuation c); [exact IH|]. cbn [drop]. exact IH.
Qed.

Lemma drop_app (pre rest : string) :
  starts_char pre = true -> starts_char rest = true ->
  drop (len pre) (pre +:+ rest) = rest.
Proof.
  intros Hpre Hrest.
  rewrite <- (skip_continuation_id (pre +:+ rest)).
  - by apply drop_skip_app.
  - destruct pre as [|c pre]; [by rewrite app_nil|exact Hpre].
Qed.

Lemma drop_skip_beyond (n : nat) (s : string) :
  (len s <= n)%nat -> drop n (skip_continuation s) = EmptyString.
Proof.
  revert n. induction s as [|c s IH]; intros n H.
  - by destruct n.
  - cbn [len skip_continuation] in *.
    destruct (is_continuation c); [by apply IH|].
    destruct n as [|n]; [lia|]. cbn [drop]. apply IH. lia.
Qed.

Lemma drop_beyond (n : nat) (s : string) :
  starts_char s = true -> (len s <= n)%nat -> drop n s = EmptyString.
Proof.
  intros Hs H. rewrite <- (skip_continuation_id s Hs).
  by apply drop_skip_beyond.
Qed.

Lemma len_app (s t : string) : len (s +:+ t) = (len s + len t)%nat.
Proof.
  induction s as [|c s IH]; [done|]. rewrite app_cons. cbn [len].
  destruct (is_continuation c); [done|]. by rewrite IH.
Qed.

End ShownFacts.

(** X14. The name shown for a file is its resolved path without as many
    leading characters as the resolved [SRC_DIR] has, and one more,
    whatever these characters are; characters are counted, not bytes.
    When the path is the resolved [SRC_DIR], a slash and a rest, the rest
    is shown; when the path has no more characters than that, the empty
    string is shown. *)
Theorem get_relative_filename_spec (file : string)
    (resolve : FS -> Path -> Path) (self : FileCreator) (fs : FS) :
  let src := PurePath.str (resolve fs (SRC_DIR file)) in
  let full := PurePath.str (resolve fs (get_absolute_filename self)) in
  (forall pre rest : string,
     full = pre +:+ rest ->
     Str.starts_char pre = true -> Str.starts_char rest = true ->
     Str.len pre = (1 + Str.len src)%nat ->
     get_relative_filename file resolve self fs = rest) /\
  (forall rest : string,
     full = src +:+ "/" +:+ rest ->
     Str.starts_char src = true -> Str.starts_char rest = true ->
     get_relative_filename file resolve self fs = rest) /\
  (Str.starts_char full = true ->
   (Str.len full <= 1 + Str.len src)%nat ->
   get_relative_filename file resolve self fs = EmptyString).
Proof.
  intros src full. unfold get_relative_filename. fold src. fold full.
  split; [|split].
  - intros pre rest -> Hpre Hrest <-. by apply ShownFacts.drop_app.
  - intros rest -> Hsrc Hrest. rewrite <- StrFacts.app_assoc.
    replace (1 + Str.len src)%nat with (Str.len (src +:+ "/")).
    + apply ShownFacts.drop_app; [|done].
      destruct src as [|c src']; [done|exact Hsrc].
    + rewrite ShownFacts.len_app. simpl. lia.
  - apply ShownFacts.drop_beyond.
Qed.

(** In a directory with a Cyrillic name of one letter, which takes two
    bytes, the name shown begins after the slash. *)
Lemma get_relative_filename_spec_witness :
  get_relative_filename Sample.file Sample.resolve
    (TSXFileCreator Sample.Button) ∅
  = "components/Button/Button.tsx" /\
  get_relative_filename "/д/createcomponent.py" Sample.resolve
    (TSXFileCreator
       {| full_path := PurePath.mk "/" ["д"; "src"; "pages"; "x"];
          name := "x" |}) ∅
  = "pages/x/x.tsx".
Proof.
  split.
  - apply (proj1 (proj2 (get_relative_filename_spec Sample.file
                           Sample.resolve (TSXFileCreator Sample.Button) ∅)));
      reflexivity.
  - apply (proj1 (proj2 (get_relative_filename_spec "/д/createcomponent.py"
                           Sample.resolve
                           (TSXFileCreator
                              {| full_path :=
                                   PurePath.mk "/" ["д"; "src"; "pages"; "x"];
                                 name := "x" |}) ∅)));
      reflexivity.
Defined.

(** X15. Nothing of the input is lost in parsing: the input is the name
    of the element when it has no slash, and otherwise it is the relative
    path that was joined to the base folder, a slash, and the name. *)
Theorem parse_reads_back (file : string) (B : BaseFolder) (S : string) :
  exists e : Element,
    _parse_as_element file S B = Return e /\
    ((Str.no_sep "/" S /\ S = name e /\
      full_path e = (SRC_DIR file / BaseFolder_str B / S)%path) \/
     (exists rel : string,
        S = rel +:+ "/" +:+ name e /\
        full_path e = (SRC_DIR file / BaseFolder_str B / rel)%path)).
Proof.
  eexists. split; [apply parse_as_element_eq|]. cbn [name full_path].
  pose proof (StrFacts.split_not_nil "/" S) as Hne.
  pose proof (StrFacts.join_split "/" S) as Hj.
  pose proof (StrFacts.split_no_sep "/" S) as Hno.
  destruct (exists_last Hne) as (l & N & E). rewrite E in *.
  rewrite last_last, removelast_last, List.length_app. simpl length.
  destruct l as [|x l].
  - left. cbn [app Str.join] in Hj. subst N.
    apply Forall_inv in Hno. by rewrite Z.ltb_irrefl.
  - right. exists (Str.join "/" (x :: l)).
    rewrite StrFacts.join_snoc in Hj by done. split; [done|].
    replace (1 <? _) with true; [done|].
    symmetry. apply Z.ltb_lt. simpl length. lia.
Qed.

(** ** A run on an empty store *)

Module FreshFacts.
Import PurePath Os OsFacts.






End FreshFacts.

Section Fresh.
Import Str StrFacts.

Variable __file__ : string.
Variable resolve : FS -> Path -> Path.


End Fresh.


(** ** A failure after the first file *)

Section Partial.
Import Str PurePath Os OsFacts ComposeFacts TargetFacts.

Variable e : Element.
Hypothesis name_no_slash : no_sep "/" (name e).

Local Abbreviation tsx := (get_absolute_filename (TSXFileCreator e)).
Local Abbreviation css := (get_absolute_filename (CSSFileCreator e)).
Local Abbreviation idx := (get_absolute_filename (IndexFileCreator e)).

Lemma index_on_directory (fs : FS) :
  can_hold fs idx = true -> is_dir idx fs = true ->
  exists fs1,
    create (IndexFileCreator e) fs = (fs1, Raise IsADirectoryError) /\
    leaves_rest idx fs fs1.
Proof.
  intros Hhold Hd.
  destruct (ensure_where idx fs Hhold) as (fs1 & Hrun & Hstat & Hrest).
  apply is_dir_stat in Hd. rewrite Hd in Hstat.
  change (stat fs1 idx = Some Dir) in Hstat.
  exists fs1. split; [|done]. unfold create, seq, bind.
  change (_create_empty_file (IndexFileCreator e) fs)
    with ((mkdir (parent idx) >> touch idx) fs).
  rewrite Hrun. cbn [_write_file_contents IndexFileCreator].
  change (full_path e / "index.ts")%path with idx.
  unfold bind, read_text. by rewrite Hstat.
Qed.

Lemma index_unreadable (fs : FS) (b : string) :
  can_hold fs idx = true -> stat fs idx = Some (Undecodable b) ->
  exists fs1,
    create (IndexFileCreator e) fs = (fs1, Raise UnicodeDecodeError) /\
    stat fs1 idx = Some (Undecodable b) /\
    leaves_rest idx fs fs1.
Proof.
  intros Hhold Hb.
  destruct (ensure_where idx fs Hhold) as (fs1 & Hrun & Hstat & Hrest).
  rewrite Hb in Hstat.
  change (stat fs1 idx = Some (Undecodable b)) in Hstat.
  exists fs1. split; [|done]. unfold create, seq, bind.
  change (_create_empty_file (IndexFileCreator e) fs)
    with ((mkdir (parent idx) >> touch idx) fs).
  rewrite Hrun. cbn [_write_file_contents IndexFileCreator].
  change (full_path e / "index.ts")%path with idx.
  unfold bind, read_text. by rewrite Hstat.
Qed.

(** X16. An index file that cannot be read as text stops the run of the
    creators at the third: for an element whose name has no slash and
    whose directory is spelled without [..],
    [ElementFilesCreator.create] raises [UnicodeDecodeError], the index
    file is as it was, and the script file and the style file have been
    written before. *)
Theorem create_stops_at_unreadable_index (fs : FS) (b : string) :
  Forall (fun x => x <> "..") (parts (full_path e)) ->
  can_hold fs tsx = true ->
  is_dir tsx fs = false -> stat fs idx = Some (Undecodable b) ->
  exists fs',
    ElementFilesCreator_create (creator_of e) fs
    = (fs', Raise UnicodeDecodeError) /\
    stat fs' idx = Some (Undecodable b) /\
    stat fs' tsx = Some (File (TSX.contents (name e))) /\
    stat fs' css = Some (default (File EmptyString) (stat fs css)).
Proof.
  intros _ Hhold Hnd_tsx Hb.
  destruct (first_two_files e name_no_slash fs Hhold Hnd_tsx)
    as (fs1 & fs2 & R1 & R2 & T & C & I & Hhold2 & _).
  rewrite Hb in I.
  destruct (index_unreadable fs2 b Hhold2 I) as (fs3 & R3 & S3 & L3).
  pose proof (css_idx e name_no_slash) as Hci.
  pose proof (tsx_idx e name_no_slash) as Hti.
  pose proof (depth_tsx_css e name_no_slash) as Dtc.
  pose proof (depth_tsx_idx e name_no_slash) as Dti.
  exists fs3. split; [|split; [done|split]].
  - rewrite three_creators. unfold seq, bind. by rewrite R1, R2, R3.
  - rewrite (leaves_rest_stat idx tsx fs2 fs3 L3); [done|lia|done].
  - rewrite (leaves_rest_stat idx css fs2 fs3 L3); [done|lia|done].
Qed.

(** X18. Nothing is undone when a later creator fails: with a directory
    in the place of the index file, [ElementFilesCreator.create] raises
    [IsADirectoryError] from the third creator, and the store it leaves
    has the script file with the template and the style file. *)
Theorem create_is_not_undone (fs : FS) :
  can_hold fs tsx = true ->
  is_dir tsx fs = false -> is_dir idx fs = true ->
  exists fs',
    ElementFilesCreator_create (creator_of e) fs
    = (fs', Raise IsADirectoryError) /\
    stat fs' tsx = Some (File (TSX.contents (name e))) /\
    stat fs' css = Some (default (File EmptyString) (stat fs css)).
Proof.
  intros Hhold Hnd_tsx Hd_idx.
  destruct (first_two_files e name_no_slash fs Hhold Hnd_tsx)
    as (fs1 & fs2 & R1 & R2 & T & C & I & Hhold2 & _).
  assert (is_dir idx fs2 = true) as Hd2.
  { apply is_dir_stat. apply is_dir_stat in Hd_idx. congruence. }
  destruct (index_on_directory fs2 Hhold2 Hd2) as (fs3 & R3 & L3).
  pose proof (css_idx e name_no_slash) as Hci.
  pose proof (tsx_idx e name_no_slash) as Hti.
  pose proof (depth_tsx_css e name_no_slash) as Dtc.
  pose proof (depth_tsx_idx e name_no_slash) as Dti.
  exists fs3. split; [|split].
  - rewrite three_creators. unfold seq, bind. by rewrite R1, R2, R3.
  - rewrite (leaves_rest_stat idx tsx fs2 fs3 L3); [done|lia|done].
  - rewrite (leaves_rest_stat idx css fs2 fs3 L3); [done|lia|done].
Qed.

End Partial.

Lemma create_is_not_undone_witness :
  let fs : FS :=
    <[PurePath.mk "/" (Sample.folder ++ ["index.ts"]) := Os.Dir]> ∅ in
  exists fs',
    ElementFilesCreator_create (creator_of Sample.Button) fs
    = (fs', Raise IsADirectoryError) /\
    Os.stat fs' (PurePath.mk "/" (Sample.folder ++ ["Button.tsx"]))
    = Some (Os.File (TSX.contents "Button")).
Proof.
  intros fs.
  assert (Str.no_sep "/" (name Sample.Button)) as Hname
    by (cbn; repeat (split; [discriminate|]); exact I).
  assert (Os.can_hold fs (get_absolute_filename (TSXFileCreator Sample.Button))
          = true) as Hhold by (vm_compute; reflexivity).
  assert (Os.is_dir (get_absolute_filename (TSXFileCreator Sample.Button)) fs
          = false) as Ht by (vm_compute; reflexivity).
  assert (Os.is_dir (get_absolute_filename (IndexFileCreator Sample.Button))
            fs = true) as Hi by (vm_compute; reflexivity).
  destruct (create_is_not_undone Sample.Button Hname fs Hhold Ht Hi)
    as (fs' & Hrun & Htsx & _).
  exists fs'. split; [exact Hrun|exact Htsx].
Defined.

Lemma create_stops_at_unreadable_index_witness :
  let idx := PurePath.mk "/" (Sample.folder ++ ["index.ts"]) in
  let fs : FS := <[idx := Os.Undecodable (String "255" EmptyString)]> ∅ in
  exists fs',
    ElementFilesCreator_create (creator_of Sample.Button) fs
    = (fs', Raise UnicodeDecodeError) /\
    Os.stat fs' idx = Some (Os.Undecodable (String "255" EmptyString)) /\
    Os.stat fs' (PurePath.mk "/" (Sample.folder ++ ["Button.tsx"]))
    = Some (Os.File (TSX.contents "Button")).
Proof.
  intros idx fs.
  assert (Str.no_sep "/" (name Sample.Button)) as Hname
    by (cbn; repeat (split; [discriminate|]); exact I).
  assert (Os.can_hold fs (get_absolute_filename (TSXFileCreator Sample.Button))
          = true) as Hhold by (vm_compute; reflexivity).
  assert (Os.is_dir (get_absolute_filename (TSXFileCreator Sample.Button)) fs
          = false) as Ht by (vm_compute; reflexivity).
  assert (Os.stat fs (get_absolute_filename (IndexFileCreator Sample.Button))
          = Some (Os.Undecodable (String "255" EmptyString))) as Hi
    by (vm_compute; reflexivity).
  assert (Forall (fun x => x <> "..")
            (PurePath.parts (full_path Sample.Button)))
    as Hdots by (repeat constructor; discriminate).
  destruct (create_stops_at_unreadable_index Sample.Button Hname fs _
              Hdots Hhold Ht Hi)
    as (fs' & Hrun & Hidx & Htsx & _).
  exists fs'. split; [exact Hrun|]. split; [exact Hidx|exact Htsx].
Defined.
